(** * Hark Coinbase BTC-USD bot: calibration engine and live trading sections

    A shallow embedding of the pattern scanner ([Cartesian_Trier]), the
    viability checks, the ceiling buckets of [constraints_guesser], the
    module-level trading sections and the per-tick strategy functions of
    "Hark Coinbase Crypto BTC USD bot.py".

    Numbers.  The script computes on Python floats.  Prices, multipliers and
    ratios are embedded as rationals ([Q]) with exact arithmetic; rounding is
    not modelled.  Counts are [nat], epoch seconds are [Z]. *)

From Stdlib Require Import List Bool Arith ZArith QArith Lia Lqa.
Import ListNotations.

Close Scope Q_scope.

Set Implicit Arguments.

(** ** Comparisons on rationals, as booleans *)

Module Cmp.

Definition le (x y : Q) : bool := Qle_bool x y.
Definition ge (x y : Q) : bool := Qle_bool y x.
Definition lt (x y : Q) : bool := negb (Qle_bool y x).
Definition gt (x y : Q) : bool := negb (Qle_bool x y).

End Cmp.

Infix "<=?q" := Cmp.le (at level 70, no associativity).
Infix ">=?q" := Cmp.ge (at level 70, no associativity).
Infix "<?q" := Cmp.lt (at level 70, no associativity).
Infix ">?q" := Cmp.gt (at level 70, no associativity).

(** A Python [for x in l: body], threading the state the body mutates. *)
Definition for_each {A S : Type} (l : list A) (body : A -> S -> S) (s : S) : S :=
  fold_left (fun acc x => body x acc) l s.

(** ** Increments_Generator *)

Module Grid.

(** The fifteen module-level lists, of which [Cartesian_Trier] iterates six. *)
Record Lists := mkLists {
  axlist : list Q;
  axxlist : list Q;
  aclist : list Q;
  bxlist : list Q;
  bxxlist : list Q;
  cdlist : list Q
}.

(** [for i in range(20): axvalue = 0.002 * (i + 1)]; [cdvalue = 0.005 * (i + 1)]. *)
Definition increments (step : Q) (count : nat) : list Q :=
  map (fun i => (step * (inject_Z (Z.of_nat i) + 1))%Q) (seq 0 count).

Definition Increments_Generator : Lists :=
  let fine := increments (2 # 1000) 20 in
  mkLists fine fine fine fine fine (increments (5 # 1000) 20).

End Grid.

(** ** Cartesian_Trier *)

Module Scanner.
Import Grid.

Local Open Scope Q_scope.

(** The ten flat lists the trier extends. *)
Record Samples := mkSamples {
  wins_risinglows_abcd : list Q;
  losses_risinglows_abcd : list Q;
  dropped_wins_risinglows_abc : list Q;
  dropped_losses_risinglows_abc : list Q;
  wins_risinglows_abc : list Q;
  losses_risinglows_abc : list Q;
  wins_risinglows_ab : list Q;
  losses_risinglows_ab : list Q;
  dropped_wins_risinglows_ab : list Q;
  dropped_losses_risinglows_ab : list Q
}.

Definition no_samples : Samples := mkSamples [] [] [] [] [] [] [] [] [] [].

(** The conditions of the innermost loop body, with Python's precedence:
    [1+ax * a] is [1 + (ax * a)], [a * 1+ac] is [(a * 1) + ac] and
    [b * 1+cd] is [(b * 1) + cd]. *)
Section Conditions.
Variables a b c d : Q.
Variables ax axx ac bx bxx cd : Q.

Definition abcd_match : bool :=
  (a <?q b) && (b >=?q 1 + ax * a) && (b <=?q 1 + axx * a)
  && (b <=?q 1 + bxx * c) && (c >?q a * 1 + ac) && (b >=?q 1 + bx * c).

Definition abcd_win : bool := abcd_match && (d >=?q 1 + cd * c).
Definition abcd_loss : bool := abcd_match && (d <?q 1 + cd * c).

Definition dropped_abc_match : bool :=
  (a >?q b) && (b >=?q 1 + ax * a) && (b <=?q 1 + axx * a)
  && (b <=?q 1 + bxx * c).

Definition dropped_abc_win : bool := dropped_abc_match && (c >=?q b * 1 + cd).
Definition dropped_abc_loss : bool := dropped_abc_match && (c <?q b * 1 + cd).

Definition abc_match : bool :=
  (a <?q b) && (b >=?q 1 + ax * a) && (b <=?q 1 + axx * a).

Definition abc_win : bool := abc_match && (c >=?q b * 1 + cd).
Definition abc_loss : bool := abc_match && (c <?q b * 1 + cd).

Definition ab_match : bool := (a <?q b) && (b >=?q 1 + ax * a).

Definition ab_win : bool := ab_match && (c >=?q b * 1 + cd).
Definition ab_loss : bool := ab_match && (c <?q b * 1 + cd).

Definition dropped_ab_match : bool := (a >?q b) && (b <=?q 1 + ax * a).

Definition dropped_ab_win : bool := dropped_ab_match && (c >=?q b * 1 + cd).
Definition dropped_ab_loss : bool := dropped_ab_match && (c <?q b * 1 + cd).

(** [lst.extend([...])] under an [if]. *)
Definition extend_if (cond : bool) (lst group : list Q) : list Q :=
  if cond then lst ++ group else lst.

(** One pass of the innermost body: ten [if]s, each extending its list. *)
Definition tries (s : Samples) : Samples :=
  let g10 := [a; 1 + ax; b; 1 + axx; c; 1 + ac; 1 + bx; 1 + bxx; 1 + cd; d] in
  let g9 := [a; 1 + ax; b; 1 + axx; c; 1 + ac; 1 + bx; 1 + bxx; 1 + cd] in
  let g6 := [a; 1 + ax; b; 1 + axx; c; 1 + cd] in
  let g5 := [a; 1 + ax; b; c; 1 + cd] in
  mkSamples
    (extend_if abcd_win (wins_risinglows_abcd s) g10)
    (extend_if abcd_loss (losses_risinglows_abcd s) g10)
    (extend_if dropped_abc_win (dropped_wins_risinglows_abc s) g9)
    (extend_if dropped_abc_loss (dropped_losses_risinglows_abc s) g9)
    (extend_if abc_win (wins_risinglows_abc s) g6)
    (extend_if abc_loss (losses_risinglows_abc s) g6)
    (extend_if ab_win (wins_risinglows_ab s) g5)
    (extend_if ab_loss (losses_risinglows_ab s) g5)
    (extend_if dropped_ab_win (dropped_wins_risinglows_ab s) g5)
    (extend_if dropped_ab_loss (dropped_losses_risinglows_ab s) g5).
End Conditions.

Section Trier.
Variable G : Lists.

(** The six nested [for] loops over the increment lists. *)
Definition combinations (a b c d : Q) : Samples -> Samples :=
  for_each (axlist G) (fun ax =>
  for_each (axxlist G) (fun axx =>
  for_each (aclist G) (fun ac =>
  for_each (bxlist G) (fun bx =>
  for_each (bxxlist G) (fun bxx =>
  for_each (cdlist G) (fun cd =>
    tries a b c d ax axx ac bx bxx cd)))))).

(** What a run produced: the sample lists and, in order, every index of
    the price history that was subscripted. *)
Record Run := mkRun { samples : Samples; reads : list nat }.

(** The outer loop over [enumerate(csv_imported_price_history_hourly)].
    A subscript out of range is Python's IndexError: [None]. *)
Fixpoint windows (hist : list Q) (positions : list nat) (r : Run) : option Run :=
  match positions with
  | [] => Some r
  | i :: rest =>
      if (length hist <=? i + 3)%nat then Some r (* break *)
      else
        match nth_error hist i, nth_error hist (i + 1),
              nth_error hist (i + 2), nth_error hist (i + 3) with
        | Some a, Some b, Some c, Some d =>
            windows hist rest
              (mkRun (combinations a b c d (samples r))
                     (reads r ++ [i; i + 1; i + 2; i + 3]%nat))
        | _, _, _, _ => None
        end
  end.

Definition Cartesian_Trier (hist : list Q) : option Run :=
  windows hist (seq 0 (length hist)) (mkRun no_samples []).

(** The window at position [i], four consecutive prices, and the
    subscripts it evaluates. *)
Definition window_body (hist : list Q) (i : nat) (s : Samples) : Samples :=
  combinations (nth i hist 0) (nth (i + 1) hist 0)
               (nth (i + 2) hist 0) (nth (i + 3) hist 0) s.

Definition window_reads (i : nat) : list nat := [i; i + 1; i + 2; i + 3]%nat.

End Trier.

End Scanner.

(** ** Python's tri-state flags

    The script keeps its switches as [None], [False] or [True].  Both
    [flag == True] and the truth test [if flag:] hold exactly on [True]. *)

Definition is_True (flag : option bool) : bool :=
  match flag with
  | Some true => true
  | _ => false
  end.

Definition len {A : Type} (l : list A) : Q := inject_Z (Z.of_nat (length l)).

(** ** Viability checks (the six [if totalcount_... >= 2000] statements) *)

Module Viability.

Local Open Scope Q_scope.

Record Flags := mkFlags {
  model : option bool;
  range_constraints_gotten_a : option bool
}.

(** [totalcount >= 2000 and len(wins) / totalcount >= 0.70]; the division
    is only reached when [totalcount >= 2000]. *)
Definition ratio_ok (totalcount : nat) (wins : list Q) : bool :=
  (2000 <=? totalcount)%nat
  && (len wins / inject_Z (Z.of_nat totalcount) >=?q 70 # 100).

(** Both flags are [None] before the statement.  The count is the global
    [totalcount_...], which the script computes once, before the trier
    runs; here it is an argument.
    [[
    if totalcount_abcd >= 2000 and len(wins_risinglows_abcd) / totalcount_abcd >= 0.70:
        abcdthen_a_model = True
        if len(most_win_thresholds_abcd) > 0:
           abcdthen_range_constraints_gotten_a = True
    ]] *)
Definition viability (totalcount : nat) (wins most_win_thresholds : list Q) : Flags :=
  if ratio_ok totalcount wins then
    mkFlags (Some true)
            (if (0 <? length most_win_thresholds)%nat then Some true else None)
  else mkFlags None None.










End Viability.

(** ** The ceiling buckets and constraints_guesser

    For each shape the script creates eight pairs of lists,
    [win_constraint_thresholds_..._one] .. [_eight] with their
    [loss_...] partners, all empty; the k-th pair belongs to the k-th
    ceiling of 1.004, 1.006, ... 1.018.  [constraints_guesser] is the only
    function written for them. *)

Module Buckets.

Local Open Scope Q_scope.





(** What a model list may hold: [wins_count_lister] appends one-element
    lists of places; a number is what [int] accepts. *)
Inductive Item :=
| Number (n : Z)
| Places (p : list nat).

(** [int(indexposition)]: a TypeError on a list. *)
Definition int (i : Item) : option Z :=
  match i with
  | Number n => Some n
  | Places _ => None
  end.








End Buckets.

(** ** The live part: shared globals, trading sections, trackers, tick cycle *)

Module Live.

Local Open Scope Q_scope.

(** The shapes that have a trading section and a win/loss tracker. *)
Inductive Pattern := ABCD | ABC | AB | ASpike.

Definition Pattern_eqb (p q : Pattern) : bool :=
  match p, q with
  | ABCD, ABCD | ABC, ABC | AB, AB | ASpike, ASpike => true
  | _, _ => false
  end.

(** Order calls that reached the exchange client, in program order. *)
Inductive Order :=
| MarketBuy (funds : Q)
| MarketSell (size : Q)
| LimitSell (size price : Q).

Definition is_buy (o : Order) : bool :=
  match o with MarketBuy _ => true | _ => false end.

(** What the exchange answers while one section or one cycle runs.  The
    three results are the truth values of what the order helpers return
    ([None] on an exception). *)
Record Exchange := mkExchange {
  server_time : Z;
  server_spot_price : Q;
  usd_balance : Q;
  btc_balance : Q;
  market_buy_result : bool;
  market_sell_result : bool;
  limit_sell_result : bool
}.

(** *** The module-level globals *)

Record Switches := mkSwitches {
  hourly_bot : option bool;
  minutely_bot : option bool;
  (** [abcdthen_a_model], [abcthen_model], [abthen_model], [aandupspike_model] *)
  model : Pattern -> option bool;
  (** [abcdthen_range_constraints_gotten_a] and its three siblings *)
  range_constraints_gotten_a : Pattern -> option bool
}.

(** The one position of the process.  [bought_price] and [sold_price] start
    as the spot price read at start-up, [None] when that read failed;
    [btc_amount_held] is [None] while the name is not yet bound. *)
Record Position := mkPosition {
  position_held : bool;
  tried_limit_sell : option bool;
  bought_time : Z;
  bought_price : option Q;
  sold_time : Z;
  sold_price : option Q;
  trade_amount_usd : Q;
  btc_amount_held : option Q
}.

Record Clock := mkClock {
  current_time : Z;
  time_now : Z;
  time_now_a : Z;
  current_price : Q;
  price_now : Q
}.

Record Marks := mkMarks {
  time_mark_list : list Z;
  price_mark_list : list Q;
  time_mark_a : option Z;
  time_mark_b : option Z;
  time_mark_c : option Z
}.

(** Module-level names that no function assigns. *)
Record Past := mkPast {
  price_1_minute_ago : option Q;
  price_2_minutes_ago : option Q;
  price_3_minutes_ago : option Q;
  price_5_minutes_ago : option Q;
  price_65_minutes_ago : option Q;
  price_125_minutes_ago : option Q
}.

(** [win_history_abcdthen_a], [loss_history_abcdthen_a] and the like. *)
Record Histories := mkHistories {
  win_history : Pattern -> list nat;
  loss_history : Pattern -> list nat
}.

Record State := mkState {
  switches : Switches;
  position : Position;
  clock : Clock;
  marks : Marks;
  past : Past;
  histories : Histories;
  orders : list Order
}.

Definition upd {V : Type} (f : Pattern -> V) (p : Pattern) (v : V) : Pattern -> V :=
  fun q => if Pattern_eqb p q then v else f q.

(** Assignments to single globals. *)
Definition on_position (f : Position -> Position) (st : State) : State :=
  mkState (switches st) (f (position st)) (clock st) (marks st) (past st) (histories st) (orders st).

Definition on_switches (f : Switches -> Switches) (st : State) : State :=
  mkState (f (switches st)) (position st) (clock st) (marks st) (past st) (histories st) (orders st).

Definition set_position_held (v : bool) : State -> State :=
  on_position (fun p => mkPosition v (tried_limit_sell p) (bought_time p) (bought_price p)
    (sold_time p) (sold_price p) (trade_amount_usd p) (btc_amount_held p)).

Definition set_tried_limit_sell (v : option bool) : State -> State :=
  on_position (fun p => mkPosition (position_held p) v (bought_time p) (bought_price p)
    (sold_time p) (sold_price p) (trade_amount_usd p) (btc_amount_held p)).

Definition set_bought_time (v : Z) : State -> State :=
  on_position (fun p => mkPosition (position_held p) (tried_limit_sell p) v (bought_price p)
    (sold_time p) (sold_price p) (trade_amount_usd p) (btc_amount_held p)).

Definition set_bought_price (v : option Q) : State -> State :=
  on_position (fun p => mkPosition (position_held p) (tried_limit_sell p) (bought_time p) v
    (sold_time p) (sold_price p) (trade_amount_usd p) (btc_amount_held p)).

Definition set_sold_time (v : Z) : State -> State :=
  on_position (fun p => mkPosition (position_held p) (tried_limit_sell p) (bought_time p)
    (bought_price p) v (sold_price p) (trade_amount_usd p) (btc_amount_held p)).

Definition set_sold_price (v : option Q) : State -> State :=
  on_position (fun p => mkPosition (position_held p) (tried_limit_sell p) (bought_time p)
    (bought_price p) (sold_time p) v (trade_amount_usd p) (btc_amount_held p)).

Definition set_trade_amount_usd (v : Q) : State -> State :=
  on_position (fun p => mkPosition (position_held p) (tried_limit_sell p) (bought_time p)
    (bought_price p) (sold_time p) (sold_price p) v (btc_amount_held p)).

Definition set_btc_amount_held (v : option Q) : State -> State :=
  on_position (fun p => mkPosition (position_held p) (tried_limit_sell p) (bought_time p)
    (bought_price p) (sold_time p) (sold_price p) (trade_amount_usd p) v).

Definition set_hourly_bot (v : option bool) : State -> State :=
  on_switches (fun s => mkSwitches v (minutely_bot s) (model s) (range_constraints_gotten_a s)).

Definition set_minutely_bot (v : option bool) : State -> State :=
  on_switches (fun s => mkSwitches (hourly_bot s) v (model s) (range_constraints_gotten_a s)).

Definition set_model (p : Pattern) (v : option bool) : State -> State :=
  on_switches (fun s => mkSwitches (hourly_bot s) (minutely_bot s) (upd (model s) p v)
    (range_constraints_gotten_a s)).

Definition set_clock (c : Clock) (st : State) : State :=
  mkState (switches st) (position st) c (marks st) (past st) (histories st) (orders st).

Definition set_marks (m : Marks) (st : State) : State :=
  mkState (switches st) (position st) (clock st) m (past st) (histories st) (orders st).

Definition set_histories (p : Pattern) (wins losses : list nat) (st : State) : State :=
  mkState (switches st) (position st) (clock st) (marks st) (past st)
    (mkHistories (upd (win_history (histories st)) p wins)
                 (upd (loss_history (histories st)) p losses))
    (orders st).

(** An order call: the request is logged whatever the exchange answers. *)
Definition place (o : Order) (st : State) : State :=
  mkState (switches st) (position st) (clock st) (marks st) (past st) (histories st) (orders st ++ [o]).

(** Shorthands for reading globals off the state. *)
Definition held (st : State) : bool := position_held (position st).
Definition price (st : State) : Q := current_price (clock st).

(** *** Statements that may raise

    A statement either completes or raises (TypeError on a [None] operand,
    NameError on an unbound name, ZeroDivisionError, IndexError); the
    globals assigned before the exception keep their new values. *)
Inductive Result :=
| Ok (st : State)
| Raised (st : State).

Definition bind (r : Result) (f : State -> Result) : Result :=
  match r with
  | Ok st => f st
  | Raised st => Raised st
  end.

Definition final (r : Result) : State :=
  match r with Ok st | Raised st => st end.

(** A condition evaluates to a truth value or raises. *)
Definition Cond := State -> option bool.

Definition If (c : Cond) (body : State -> Result) (st : State) : Result :=
  match c st with
  | Some true => body st
  | Some false => Ok st
  | None => Raised st
  end.

(** Python's short-circuit [and]. *)
Definition and_then (c1 c2 : Cond) : Cond :=
  fun st => match c1 st with
            | Some true => c2 st
            | other => other
            end.

Definition pure (f : State -> bool) : Cond := fun st => Some (f st).

(** [current_price <op> k * bought_price] *)
Definition against_bought (op : Q -> Q -> bool) (k : Q) : Cond :=
  fun st => option_map (fun bp => op (price st) (k * bp)) (bought_price (position st)).

(** [x > y] on two values that may be [None]. *)
Definition gt_opt (x y : option Q) : option bool :=
  match x, y with
  | Some u, Some v => Some (u >?q v)
  | _, _ => None
  end.

Definition ge_opt (x y : option Q) : option bool :=
  match x, y with
  | Some u, Some v => Some (u >=?q v)
  | _, _ => None
  end.

(** The order helpers as the sections call them. *)
Definition coinbase_market_sell (size : Q) (st : State) : Result :=
  Ok (place (MarketSell size) st).

Definition coinbase_limit_sell (size price : Q) (st : State) : Result :=
  Ok (place (LimitSell size price) st).

(** Helpers called on the global [btc_amount_held]. *)
Definition market_sell_amount_held (st : State) : Result :=
  match btc_amount_held (position st) with
  | Some size => coinbase_market_sell size st
  | None => Raised st
  end.

Definition limit_sell_amount_held (st : State) : Result :=
  match btc_amount_held (position st) with
  | Some size => coinbase_limit_sell size (price st * (101 # 100)) st
  | None => Raised st
  end.

(** [calculate_trade_amount()]: five percent of the USD balance. *)
Definition calculate_trade_amount (ex : Exchange) : Q := usd_balance ex * (5 # 100).

Definition seq_then (s1 s2 : State -> Result) : State -> Result :=
  fun st => bind (s1 st) s2.

Definition assign (f : State -> State) : State -> Result := fun st => Ok (f st).

Infix ";;" := seq_then (at level 61, left associativity).
Infix "&?" := and_then (at level 41, right associativity).

Definition held_c : Cond := pure held.

Definition tried_c : Cond := pure (fun st => is_True (tried_limit_sell (position st))).

(** [<clock> - bought_time >= n] *)
Definition since (clk : Clock -> Z) (n : Z) : Cond :=
  pure (fun st => (n <=? clk (clock st) - bought_time (position st))%Z).

(** [<bot> == True and <model> == True and <range_constraints_gotten_a> == True] *)
Definition gate (bot : Switches -> option bool) (p : Pattern) : Cond :=
  pure (fun st => is_True (bot (switches st))
                  && is_True (model (switches st) p)
                  && is_True (range_constraints_gotten_a (switches st) p)).

(** *** abcd_then_a_model buys and sells (module level) *)

Definition abcd_signal : Cond :=
  (fun st => gt_opt (Some (price st)) (price_5_minutes_ago (past st)))
  &? (fun st => ge_opt (price_65_minutes_ago (past st)) (price_125_minutes_ago (past st)))
  &? (fun st => ge_opt (price_5_minutes_ago (past st)) (price_125_minutes_ago (past st))).

(** [funds=str(0.05 * float(server_spot_price))] applies [float] to the
    function [server_spot_price] itself: TypeError, before any order. *)
Definition abcd_buy : State -> Result := fun st => Raised st.

Definition abcd_sells : State -> Result :=
  If (held_c &? since time_now_a 60 &? against_bought Cmp.ge (1005 # 1000))
     (limit_sell_amount_held ;; assign (set_position_held false)
      ;; assign (set_tried_limit_sell (Some true)))
  ;; If tried_c
     (If (held_c &? since time_now_a 60 &? against_bought Cmp.ge (1005 # 1000))
         (limit_sell_amount_held ;; assign (set_position_held false)
          ;; assign (set_tried_limit_sell None)))
  ;; If (held_c &? since time_now_a 61 &? against_bought Cmp.ge (1004 # 1000))
     (limit_sell_amount_held ;; assign (set_position_held false))
  ;; If (held_c &? since time_now_a 62)
     (market_sell_amount_held ;; assign (set_position_held false))
  ;; If (held_c &? since time_now_a 63)
     (market_sell_amount_held ;; assign (set_position_held false))
  (* Semi panic settle off sell *)
  ;; If (held_c &? since time_now_a 62 &? against_bought Cmp.le (1002 # 1000))
     (market_sell_amount_held ;; assign (set_position_held false))
  (* Panic sell *)
  ;; If (held_c &? since time_now_a 5 &? against_bought Cmp.le (98 # 100))
     (market_sell_amount_held ;; assign (set_position_held false)).

Definition abcd_then_a_model_buys_and_sells : State -> Result :=
  assign (set_tried_limit_sell None)
  ;; If (gate hourly_bot ABCD) (If abcd_signal abcd_buy ;; abcd_sells).

(** *** The buy of the abc, ab and aandupspike sections

    [[
    trade_amount_usd = calculate_trade_amount()
    buy_order = coinbase_market_buy(trade_amount_usd)
    position_held = True
    bought_time = current_time
    bought_price = current_price
    btc_amount_held = trade_amount_usd / bought_price
    ]] *)
Definition section_buy (ex : Exchange) : State -> Result :=
  assign (set_trade_amount_usd (calculate_trade_amount ex))
  ;; (fun st => Ok (place (MarketBuy (trade_amount_usd (position st))) st))
  ;; assign (set_position_held true)
  ;; (fun st => Ok (set_bought_time (current_time (clock st)) st))
  ;; (fun st => Ok (set_bought_price (Some (price st)) st))
  ;; (fun st => if Qeq_bool (price st) 0 then Raised st
                else Ok (set_btc_amount_held
                           (Some (trade_amount_usd (position st) / price st)) st)).

Definition limit_sell_005 : State -> Result :=
  fun st => coinbase_limit_sell (5 # 100) (price st * (101 # 100)) st.

Definition market_sell_005 : State -> Result := coinbase_market_sell (5 # 100).

(** [current_price <= 0.995] *)
Definition price_le_0995 : Cond := pure (fun st => price st <=?q 995 # 1000).

(** *** abc and then model buys and sells (module level) *)

Definition abc_signal : Cond :=
  (fun st => gt_opt (Some (price st)) (price_1_minute_ago (past st)))
  &? (fun st => gt_opt (price_1_minute_ago (past st)) (price_2_minutes_ago (past st)))
  &? (fun st => gt_opt (price_2_minutes_ago (past st)) (price_3_minutes_ago (past st))).

Definition abc_sells : State -> Result :=
  If (held_c &? since time_now 4)
     (limit_sell_005 ;; assign (set_position_held false)
      ;; assign (set_tried_limit_sell (Some true)))
  ;; If tried_c
     (If (held_c &? since time_now 4)
         (limit_sell_005 ;; assign (set_position_held false)
          ;; assign (set_tried_limit_sell None)))
  ;; If tried_c
     (If (held_c &? since time_now 4 &? price_le_0995)
         (market_sell_005 ;; assign (set_position_held false)
          ;; assign (set_tried_limit_sell None)))
  ;; If (held_c &? since time_now 5)
     (limit_sell_005 ;; assign (set_position_held false))
  ;; If tried_c
     (If (held_c &? since time_now 5)
         (market_sell_005 ;; assign (set_position_held false)
          ;; assign (set_tried_limit_sell None)))
  ;; If (held_c &? since time_now 6)
     (market_sell_005 ;; assign (set_position_held false))
  ;; If (held_c &? since time_now 7)
     (market_sell_005 ;; assign (set_position_held false)).

Definition abc_and_then_model_buys_and_sells (ex : Exchange) : State -> Result :=
  assign (set_tried_limit_sell None)
  ;; If (gate hourly_bot ABC) (If abc_signal (section_buy ex) ;; abc_sells).

(** *** ab and then model buys and sells (module level) *)

Definition ab_signal : Cond :=
  (fun st => gt_opt (Some (price st)) (price_1_minute_ago (past st)))
  &? (fun st => gt_opt (price_1_minute_ago (past st)) (price_2_minutes_ago (past st))).

Definition ab_sells : State -> Result :=
  If (held_c &? since time_now 3)
     (limit_sell_005 ;; assign (set_position_held false)
      ;; assign (set_tried_limit_sell (Some true)))
  ;; If tried_c
     (If (held_c &? since time_now 3)
         (limit_sell_005 ;; assign (set_position_held false)
          ;; assign (set_tried_limit_sell None)))
  ;; If (held_c &? since time_now 4)
     (limit_sell_005 ;; assign (set_position_held false))
  ;; If (held_c &? since time_now 5)
     (market_sell_005 ;; assign (set_position_held false))
  ;; If (held_c &? since time_now 6)
     (market_sell_005 ;; assign (set_position_held false))
  ;; If (held_c &? since time_now 7)
     (market_sell_005 ;; assign (set_position_held false))
  ;; If tried_c
     (If (held_c &? since time_now 3 &? price_le_0995)
         (market_sell_005 ;; assign (set_position_held false))).

Definition ab_and_then_model_buys_and_sells (ex : Exchange) : State -> Result :=
  assign (set_tried_limit_sell None)
  ;; If (gate hourly_bot AB) (If ab_signal (section_buy ex) ;; ab_sells).

(** *** aandupspike and then model buy sell (module level) *)

Definition aspike_signal : Cond :=
  fun st => gt_opt (Some (price st)) (price_1_minute_ago (past st)).

Definition sold_at_price_now : State -> Result :=
  fun st => Ok (set_sold_price (Some (price_now (clock st))) st).

Definition aspike_sells : State -> Result :=
  If (held_c &? since time_now 2)
     (limit_sell_005 ;; assign (set_position_held false) ;; sold_at_price_now)
  ;; If tried_c
     (If (held_c &? since time_now 2)
         (limit_sell_005 ;; assign (set_position_held false)
          ;; assign (set_tried_limit_sell None) ;; sold_at_price_now))
  ;; If tried_c
     (If (held_c &? since time_now 3)
         (market_sell_005 ;; assign (set_position_held false)
          ;; assign (set_tried_limit_sell None) ;; sold_at_price_now))
  ;; If (held_c &? since time_now 4)
     (market_sell_005 ;; assign (set_position_held false) ;; sold_at_price_now).

Definition aandupspike_and_then_model_buy_sell (ex : Exchange) : State -> Result :=
  assign (set_tried_limit_sell None)
  ;; If (gate minutely_bot ASpike) (If aspike_signal (section_buy ex) ;; aspike_sells).

(** *** Win Loss Math (one copy after each trading section) *)

Definition wins_of (p : Pattern) (st : State) : list nat := win_history (histories st) p.
Definition losses_of (p : Pattern) (st : State) : list nat := loss_history (histories st) p.

(** [isinstance(sold_price, (int, float)) and isinstance(bought_price, (int, float))
    and sold_price <op> bought_price] *)
Definition sold_against_bought (op : Q -> Q -> bool) (st : State) : bool :=
  match sold_price (position st), bought_price (position st) with
  | Some s, Some b => op s b
  | _, _ => false
  end.

(** [win_history_... = []], [loss_history_... = []]: the two lists are
    created anew right before the recording. *)
Definition new_histories (p : Pattern) : State -> Result :=
  assign (set_histories p [] []).

(** The two recording [if]s; [ordercount] is [1]. *)
Definition record_outcome (p : Pattern) : State -> Result :=
  fun st =>
    let flat := negb (held st) in
    Ok (set_histories p
          (if flat && sold_against_bought Cmp.gt st
           then wins_of p st ++ [1%nat] else wins_of p st)
          (if flat && sold_against_bought Cmp.lt st
           then losses_of p st ++ [1%nat] else losses_of p st)
          st).

Definition total_win_loss (p : Pattern) (st : State) : nat :=
  (length (wins_of p st) + length (losses_of p st))%nat.

(** [len(win_history) / total if total > 0 else 0] *)
Definition win_rate (p : Pattern) (st : State) : Q :=
  if (0 <? total_win_loss p st)%nat
  then len (wins_of p st) / inject_Z (Z.of_nat (total_win_loss p st))
  else 0.

(** [if 'btc_amount_held' not in globals() or btc_amount_held == 0.0:
        btc_amount_held = get_btc_balance()] *)
Definition fallback_amount (ex : Exchange) : State -> Result :=
  fun st =>
    match btc_amount_held (position st) with
    | Some size => if Qeq_bool size 0
                   then Ok (set_btc_amount_held (Some (btc_balance ex)) st)
                   else Ok st
    | None => Ok (set_btc_amount_held (Some (btc_balance ex)) st)
    end.

(** [if win_rate < 0.60 and total >= 20:] the deactivation. *)
Definition evaluate (p : Pattern) (ex : Exchange) : State -> Result :=
  If (pure (fun st => (win_rate p st <?q 60 # 100) && (20 <=? total_win_loss p st)%nat))
     (assign (set_model p (Some false))
      ;; If held_c
         (fallback_amount ex ;; market_sell_amount_held
          ;; assign (set_position_held false))).

Definition win_loss_math (p : Pattern) (ex : Exchange) : State -> Result :=
  new_histories p ;; record_outcome p ;; evaluate p ex.

(** The size a forced flatten sells: the held amount, or the whole BTC
    balance when the amount is unbound or zero. *)
Definition flatten_size (ex : Exchange) (st : State) : Q :=
  match btc_amount_held (position st) with
  | Some size => if Qeq_bool size 0 then btc_balance ex else size
  | None => btc_balance ex
  end.

(** What a tracker records from empty lists: a function of
    [position_held], [sold_price] and [bought_price] alone. *)
Definition recorded_wins (st : State) : list nat :=
  if negb (held st) && sold_against_bought Cmp.gt st then [1%nat] else [].

Definition recorded_losses (st : State) : list nat :=
  if negb (held st) && sold_against_bought Cmp.lt st then [1%nat] else [].

(** *** Server slippage fault detector *)

(** The last two [if]s of the detector, on the count of detected faults
    and the list of recorded results. *)
Definition kill_switch (slippage_transaction_counts_record : nat)
                       (buy_sell_results : list Q) : State -> Result :=
  fun st =>
    let too_frequent :=
      ((20 <=? slippage_transaction_counts_record)
       && (100 <=? length buy_sell_results))%nat in
    let price_slippage_server_fault := if too_frequent then Some true else None in
    (If (pure (fun _ => too_frequent))
        (assign (set_hourly_bot (Some false)) ;; assign (set_minutely_bot (Some false)))
     ;; If (pure (fun _ => is_True price_slippage_server_fault))
        (assign (set_hourly_bot (Some false)) ;; assign (set_minutely_bot (Some false)))) st.

(** Python's truth test on a price: a number other than zero. *)
Definition truthy (x : option Q) : bool :=
  match x with
  | Some q => negb (Qeq_bool q 0)
  | None => false
  end.

(** The whole detector as the script runs it: [buy_sell_results] and the
    fault counter are created anew ([[]] and [0]) at its start, and
    [result_records] holds what was recorded before. *)
Definition slippage_fault_detector (result_records : list Q) : State -> Result :=
  fun st =>
    let buy_sell_results : list Q := [] in
    let bought := bought_price (position st) in
    let sold := sold_price (position st) in
    let records :=
      result_records
      ++ (if truthy bought then match bought with Some b => [b] | None => [] end else [])
      ++ (if truthy sold then match sold with Some s => [s] | None => [] end else []) in
    let detection :=
      match records with
      | _ :: position_b :: _ =>
          match bought, sold with
          | Some b, Some s => Some (if (b <?q s) && (position_b <?q b) then 1%nat else 0%nat)
          | _, _ => None
          end
      | _ => Some 0%nat
      end in
    match detection with
    | Some count => kill_switch count buy_sell_results st
    | None => Raised st
    end.

(** *** One module-level pass over the four sections and their trackers *)

Definition trading_pass (ex : Exchange) : State -> Result :=
  abcd_then_a_model_buys_and_sells ;; win_loss_math ABCD ex
  ;; abc_and_then_model_buys_and_sells ex ;; win_loss_math ABC ex
  ;; ab_and_then_model_buys_and_sells ex ;; win_loss_math AB ex
  ;; aandupspike_and_then_model_buy_sell ex ;; win_loss_math ASpike ex.

(** *** execute_hourly_strategy, execute_minutely_strategy *)

Fixpoint index (t : Z) (l : list Z) : option nat :=
  match l with
  | [] => None
  | x :: rest => if (x =? t)%Z then Some 0%nat else option_map S (index t rest)
  end.

(** [price_mark_list[time_mark_list.index(mark)] if mark in time_mark_list else None];
    the outer [None] is the IndexError of the subscript. *)
Definition mark_price (m : Marks) (mark : option Z) : option (option Q) :=
  match mark with
  | None => Some None
  | Some t =>
      match index t (time_mark_list m) with
      | None => Some None
      | Some i =>
          match nth_error (price_mark_list m) i with
          | Some p => Some (Some p)
          | None => None
          end
      end
  end.

(** The buy of both strategy functions. *)
Definition strategy_buy (ex : Exchange) : State -> Result :=
  assign (set_trade_amount_usd (calculate_trade_amount ex))
  ;; (fun st => Ok (place (MarketBuy (trade_amount_usd (position st))) st))
  ;; If (pure (fun _ => market_buy_result ex))
     (assign (set_position_held true)
      ;; (fun st => Ok (set_bought_time (current_time (clock st)) st))
      ;; (fun st => Ok (set_bought_price (Some (price st)) st))
      ;; (fun st => if Qeq_bool (price st) 0 then Raised st
                    else Ok (set_btc_amount_held
                               (Some (trade_amount_usd (position st) / price st)) st))).

(** [position_held = False; sold_time = current_time; sold_price = current_price] *)
Definition closed : State -> Result :=
  assign (set_position_held false)
  ;; (fun st => Ok (set_sold_time (current_time (clock st)) st))
  ;; (fun st => Ok (set_sold_price (Some (price st)) st)).

(** "Check for sell conditions if position is held", the same in both
    functions: profit target, then time limit, then stop loss. *)
Definition strategy_sells (ex : Exchange) : State -> Result :=
  If held_c (fun st =>
    match bought_price (position st) with
    | None => Raised st
    | Some bought =>
        if Qeq_bool bought 0 then Raised st
        else
          let time_elapsed := (current_time (clock st) - bought_time (position st))%Z in
          let price_change := (price st - bought) / bought in
          if (price_change >=?q 5 # 1000) && (60 <=? time_elapsed)%Z then
            (limit_sell_amount_held
             ;; If (pure (fun _ => limit_sell_result ex)) closed) st
          else if (120 <=? time_elapsed)%Z then
            (market_sell_amount_held
             ;; If (pure (fun _ => market_sell_result ex)) closed) st
          else if price_change <=?q - (2 # 100) then
            (market_sell_amount_held
             ;; If (pure (fun _ => market_sell_result ex)) closed) st
          else Ok st
    end).

Definition hourly_buy (ex : Exchange) : State -> Result :=
  fun st =>
    let m := marks st in
    if (3 <=? length (time_mark_list m))%nat then
      match mark_price m (time_mark_c m), mark_price m (time_mark_b m),
            mark_price m (time_mark_a m) with
      | Some price_5_ago, Some price_65_ago, Some price_125_ago =>
          if truthy price_5_ago && truthy price_65_ago && truthy price_125_ago then
            If (pure (fun st => is_True (model (switches st) ABCD) && negb (held st)))
               (If ((fun st => gt_opt (Some (price st)) price_5_ago)
                    &? (fun _ => ge_opt price_65_ago price_125_ago)
                    &? (fun _ => ge_opt price_5_ago price_125_ago))
                   (strategy_buy ex)) st
          else Ok st
      | _, _, _ => Raised st
      end
    else Ok st.

Definition execute_hourly_strategy (ex : Exchange) : State -> Result :=
  hourly_buy ex ;; strategy_sells ex.

Definition minutely_buy (ex : Exchange) : State -> Result :=
  fun st =>
    match price_1_minute_ago (past st) with
    | Some ago =>
        If (pure (fun st => is_True (model (switches st) ASpike) && negb (held st)))
           (If (pure (fun st => price st >?q ago)) (strategy_buy ex)) st
    | None => Ok st
    end.

Definition execute_minutely_strategy (ex : Exchange) : State -> Result :=
  minutely_buy ex ;; strategy_sells ex.

(** *** execute_bot_cycle and the main loop *)

Section Cycle.
(** [update_time_marks] assigns only the time-mark globals; what it
    leaves in them is a parameter here. *)
Variable update_time_marks : Exchange -> State -> Marks.

(** The log line "Current P&L" divides by [bought_price] when a position
    is held. *)
Definition log_position : State -> Result :=
  If held_c (fun st =>
    match bought_price (position st) with
    | Some bought => if Qeq_bool bought 0 then Raised st else Ok st
    | None => Raised st
    end).

Definition execute_bot_cycle (ex : Exchange) : State -> Result :=
  assign (set_clock (mkClock (server_time ex) (server_time ex) (server_time ex)
                             (server_spot_price ex) (server_spot_price ex)))
  ;; (fun st => Ok (set_marks (update_time_marks ex st) st))
  ;; log_position
  ;; (fun st =>
        if is_True (hourly_bot (switches st)) then execute_hourly_strategy ex st
        else if is_True (minutely_bot (switches st)) then execute_minutely_strategy ex st
        else Ok st).

(** [while True: try: execute_bot_cycle() except Exception: log]: an
    exception ends the cycle and the loop goes on with the globals as
    they are. *)
Definition cycle (ex : Exchange) (st : State) : State :=
  final (execute_bot_cycle ex st).

Definition main_loop (answers : list Exchange) (st : State) : State :=
  for_each answers cycle st.
End Cycle.

End Live.

(** ** The predicates as the specification words them

    "A multiplier [m] ... applied as [candidate >= (1+m) * reference] or
    [candidate <= (1+m) * reference]".  These follow the specification, not
    the script, and exist to be compared with [Scanner.ab_match] and
    [Scanner.ab_win]. *)

Module Spec.

Local Open Scope Q_scope.

Definition spec_ab_match (a b ax : Q) : bool :=
  (a <?q b) && (b >=?q (1 + ax) * a).

Definition spec_ab_win (a b c ax cd : Q) : bool :=
  spec_ab_match a b ax && (c >=?q (1 + cd) * b).

Definition spec_ab_loss (a b c ax cd : Q) : bool :=
  spec_ab_match a b ax && (c <?q (1 + cd) * b).







End Spec.

(** ** Concrete inputs used below *)

Module Inputs.
Import Live.

Local Open Scope Q_scope.

Definition exchange : Exchange :=
  mkExchange 1060 103 1000 (1 # 2) true true true.

Definition no_flags : Pattern -> option bool := fun _ => None.

Definition only (p : Pattern) : Pattern -> option bool :=
  upd no_flags p (Some true).

Definition no_histories : Histories := mkHistories (fun _ => []) (fun _ => []).

Definition no_marks : Marks := mkMarks [] [] None None None.

(** Prices rising for three minutes: 100, 101, 102, and 103 now. *)
Definition rising : Past :=
  mkPast (Some 102) (Some 101) (Some 100) (Some 102) (Some 101) (Some 100).

Definition clock_1060 : Clock := mkClock 1060 1060 1060 103 103.

(** A position bought at 100, 60 seconds ago, half a coin. *)
Definition open_position : Position :=
  mkPosition true None 1000 (Some 100) 0 None 50 (Some (1 # 2)).

Definition flat_position : Position :=
  mkPosition false None 0 (Some 100) 0 (Some 100) 0 (Some 0).


(** The abc and ab sections enabled, no position. *)
Definition abc_ab_enabled_flat : State :=
  mkState (mkSwitches (Some true) (Some false)
             (upd (only ABC) AB (Some true)) (upd (only ABC) AB (Some true)))
          flat_position clock_1060 no_marks rising no_histories [].

(** 2000 counted samples, 1400 entries in the win list, no thresholds. *)
Definition wins_1400 : list Q := repeat 1 1400.


Definition three_marks : Marks :=
  mkMarks [0; 3600; 7200]%Z [100; 101; 102] (Some 0%Z) (Some 3600%Z) (Some 7200%Z).




(** Fifteen recorded wins and twenty recorded losses, a position open. *)
Definition degraded : State :=
  mkState (mkSwitches (Some true) (Some false) (only ABCD) (only ABCD))
          open_position clock_1060 no_marks rising
          (mkHistories (upd (fun _ => []) ABCD (repeat 1%nat 15))
                       (upd (fun _ => []) ABCD (repeat 1%nat 20)))
          [].


Definition keep_marks : Exchange -> State -> Marks := fun _ st => marks st.





Definition short_grid : Grid.Lists :=
  Grid.mkLists [2 # 1000] [2 # 1000] [2 # 1000] [2 # 1000] [2 # 1000] [5 # 1000].

End Inputs.

(** ** wins_count_lister

    Each of its five loops walks a flat list of recorded values and, by the
    integer part of the value, appends the one-element lists of places
    [[0]], [[1]], ... of the first group or, shifted by the group size, of
    the second one. *)

Module Lister.

(** [int(x)] on a float: truncation towards zero. *)
Definition int (x : Q) : Z := Z.quot (Qnum x) (Z.pos (Qden x)).

(** [first_place = [0]], [second_place = [1]], ... from a start. *)
Definition places (from n : nat) : list (list nat) :=
  map (fun k => [k]) (seq from n).

(** One iteration of a loop that counts in groups of [n]:
    [[
    iterpoint = int(eachiterationpoint)
    if iterpoint == 0: append the n places
    iter_count = 0
    if iterpoint == iter_count + n: iter_count += n
    if iter_count == n: add n to each place, append the n places
    ]] *)
Definition lister_step (n : nat) (value : Q) (model : list (list nat)) : list (list nat) :=
  let iterpoint := int value in
  let model := if (iterpoint =? 0)%Z then model ++ places 0 n else model in
  let iter_count := if (iterpoint =? Z.of_nat (0 + n))%Z then 0 + n else 0 in
  if (iter_count =? n)%nat then model ++ places n n else model.

Definition lister_loop (n : nat) (values : list Q) : list (list nat) :=
  for_each values (lister_step n) [].

Record Models := mkModels {
  ab_then_model : list (list nat);
  dropped_ab_then_model : list (list nat);
  abc_then_model : list (list nat);
  dropped_abc_then_model : list (list nat);
  abcd_then_a_model : list (list nat)
}.

(** The five loops, on the five lists they read. *)
Definition wins_count_lister
    (wins_rising_ab dropped_wins_rising_ab wins_rising_abc
     dropped_wins_rising_abc wins_risinglows_abcd : list Q) : Models :=
  mkModels (lister_loop 5 wins_rising_ab)
           (lister_loop 5 dropped_wins_rising_ab)
           (lister_loop 6 wins_rising_abc)
           (lister_loop 9 dropped_wins_rising_abc)
           (lister_loop 10 wins_risinglows_abcd).

(** The lister as the script runs it after the trier: the four
    [wins_rising_...] lists are never written and are still empty; only
    [wins_risinglows_abcd] holds what the trier recorded. *)
Definition wins_count_lister_after (s : Scanner.Samples) : Models :=
  wins_count_lister [] [] [] [] (Scanner.wins_risinglows_abcd s).

End Lister.

(** ** update_time_marks

    The function reads the server time and the spot price once and
    [time.perf_counter()] at up to three places.  The spot price is taken
    to be a number. *)

Module TimeMarks.

Local Open Scope Q_scope.

Inductive Letter := A | B | C | D | E | F | G.

Definition Letter_eqb (x y : Letter) : bool :=
  match x, y with
  | A, A | B, B | C, C | D, D | E, E | F, F | G, G => true
  | _, _ => false
  end.

Record Readings := mkReadings {
  current_timestamp : Z;
  current_price_value : Q;
  perf_at_check : Q;
  perf_at_reset : Q;
  perf_at_second_check : Q
}.

(** The globals the function declares: the counter, the two perf-counter
    stamps, the two lists, [time_mark_a] .. [time_mark_g] and
    [price_mark_a] .. [price_mark_g] (which [price_at_time_mark_...]
    duplicate). *)
Record Timer := mkTimer {
  time_mark : Z;
  last_time_check : Q;
  minute_counter : Q;
  time_mark_list : list Z;
  price_mark_list : list Q;
  time_mark_of : Letter -> option Z;
  price_mark_of : Letter -> option Q
}.

Definition set_letter {V : Type} (f : Letter -> V) (x : Letter) (v : V) : Letter -> V :=
  fun y => if Letter_eqb x y then v else f y.

(** [time_mark_x = current_timestamp; time_mark_list.append(time_mark_x)]
    and the same for the price. *)
Definition record_mark (x : Letter) (r : Readings) (t : Timer) : Timer :=
  mkTimer (time_mark t) (last_time_check t) (minute_counter t)
          (time_mark_list t ++ [current_timestamp r])
          (price_mark_list t ++ [current_price_value r])
          (set_letter (time_mark_of t) x (Some (current_timestamp r)))
          (set_letter (price_mark_of t) x (Some (current_price_value r))).

Definition set_time_mark (v : Z) (t : Timer) : Timer :=
  mkTimer v (last_time_check t) (minute_counter t) (time_mark_list t)
          (price_mark_list t) (time_mark_of t) (price_mark_of t).

(** [time_mark += 1; last_time_check = time.perf_counter()] *)
Definition tick_hourly (r : Readings) (t : Timer) : Timer :=
  mkTimer (time_mark t + 1) (perf_at_reset r) (minute_counter t) (time_mark_list t)
          (price_mark_list t) (time_mark_of t) (price_mark_of t).

(** [time_mark += 1; minute_counter = time.perf_counter()] *)
Definition tick_minutely (r : Readings) (t : Timer) : Timer :=
  mkTimer (time_mark t + 1) (last_time_check t) (perf_at_reset r) (time_mark_list t)
          (price_mark_list t) (time_mark_of t) (price_mark_of t).

(** [if len(lst) > 5: temp = lst[5]; lst.clear(); lst.append(temp)] *)
Definition keep_sixth {V : Type} (lst : list V) : list V :=
  if (5 <? length lst)%nat
  then match nth_error lst 5 with Some temp => [temp] | None => lst end
  else lst.

Definition list_maintenance (t : Timer) : Timer :=
  mkTimer (time_mark t) (last_time_check t) (minute_counter t)
          (keep_sixth (time_mark_list t)) (keep_sixth (price_mark_list t))
          (time_mark_of t) (price_mark_of t).

Definition when (c : bool) (f : Timer -> Timer) (t : Timer) : Timer :=
  if c then f t else t.

Definition hourly_marks (r : Readings) (t : Timer) : Timer :=
  let t := when (time_mark t =? 0)%Z (record_mark A r) t in
  let t := when ((0 <=? time_mark t)%Z && (perf_at_check r - last_time_check t >=?q 60))
                (tick_hourly r) t in
  let t := when (time_mark t =? 60)%Z (record_mark B r) t in
  let t := when (time_mark t =? 120)%Z
                (fun t => set_time_mark 0 (record_mark C r t)) t in
  list_maintenance t.

Definition minutely_marks (r : Readings) (t : Timer) : Timer :=
  let t := when (time_mark t =? 0)%Z (record_mark C r) t in
  let t := when ((0 <=? time_mark t)%Z && (perf_at_check r - minute_counter t >=?q 60))
                (tick_minutely r) t in
  let t := when ((time_mark t =? 1)%Z
                 && (perf_at_second_check r - minute_counter t >=?q 5))
                (record_mark D r) t in
  let t := when (time_mark t =? 2)%Z (record_mark E r) t in
  let t := when (time_mark t =? 3)%Z (record_mark F r) t in
  let t := when (time_mark t =? 4)%Z
                (fun t => set_time_mark 0 (record_mark G r t)) t in
  list_maintenance t.

(** [if hourly_bot: ... elif minutely_bot: ...] *)
Definition update_time_marks (hourly_bot minutely_bot : option bool)
                             (r : Readings) (t : Timer) : Timer :=
  if is_True hourly_bot then hourly_marks r t
  else if is_True minutely_bot then minutely_marks r t
  else t.

(** The part of the timer the strategy functions read. *)
Definition marks_of (t : Timer) : Live.Marks :=
  Live.mkMarks (time_mark_list t) (price_mark_list t)
               (time_mark_of t A) (time_mark_of t B) (time_mark_of t C).

(** The globals at start-up: [time_mark = 0], both lists empty, every mark
    [None]. *)
Definition start (perf : Q) : Timer :=
  mkTimer 0 perf perf [] [] (fun _ => None) (fun _ => None).

(** Any number of calls, each with its own switches and readings. *)
Definition calls (inputs : list (option bool * option bool * Readings)) (t : Timer) : Timer :=
  for_each inputs (fun i => update_time_marks (fst (fst i)) (snd (fst i)) (snd i)) t.

(** The two lists in step: a price for every time mark. *)
Definition in_step (t : Timer) : Prop :=
  length (time_mark_list t) = length (price_mark_list t).

(** The two lists in step and short: what the look-ups rely on. *)
Definition aligned (t : Timer) : Prop :=
  length (time_mark_list t) = length (price_mark_list t)
  /\ (length (time_mark_list t) <= 5)%nat.

End TimeMarks.

(** ** update_price_history: the rows of the minutely file *)

Module PriceHistory.

(** [DataFrame.tail(n)]: the last [n] rows, in order. *)
Definition tail {V : Type} (n : nat) (rows : list V) : list V :=
  skipn (length rows - n) rows.

(** The minutely file after one call: the current spot price, if the read
    gave one, is written as a new last row, and a file of more than [limit]
    rows is cut to its last [limit]. *)
Definition append_and_trim (limit : nat) (rows : list Q) (current_spot : option Q) : list Q :=
  match current_spot with
  | None => rows
  | Some price =>
      let rows := rows ++ [price] in
      if (limit <? length rows)%nat then tail limit rows else rows
  end.

(** Ten days of minutes. *)
Definition minutes_kept : nat := Z.to_nat 14400.

Definition update_minutely : list Q -> option Q -> list Q :=
  append_and_trim minutes_kept.

(** The hourly file: a new last row when the call falls on minute 0. *)
Definition update_hourly (rows : list Q) (current_spot : option Q) (minute : nat) : list Q :=
  match current_spot with
  | None => rows
  | Some price => if (minute =? 0)%nat then rows ++ [price] else rows
  end.

End PriceHistory.

(** ** The calibration as the script runs it *)

Module AsRun.

(** [totalcount_abcd = len(wins_risinglows_abcd) + len(losses_risinglows_abcd)]
    and its five siblings are the statements right after the two lists are
    created empty; the trier runs later and no count is computed again. *)
Definition totalcount : nat := length (@nil Q) + length (@nil Q).

(** A viability check on that count, whatever the lists hold by then. *)
Definition viability (wins most_win_thresholds : list Q) : Viability.Flags :=
  Viability.viability totalcount wins most_win_thresholds.

End AsRun.

(** ** Invariants stated below *)

Module Invariants.

(** The flat lists hold whole groups. *)
Definition whole_groups (s : Scanner.Samples) : Prop :=
  Nat.divide 10 (length (Scanner.wins_risinglows_abcd s))
  /\ Nat.divide 10 (length (Scanner.losses_risinglows_abcd s))
  /\ Nat.divide 9 (length (Scanner.dropped_wins_risinglows_abc s))
  /\ Nat.divide 9 (length (Scanner.dropped_losses_risinglows_abc s))
  /\ Nat.divide 6 (length (Scanner.wins_risinglows_abc s))
  /\ Nat.divide 6 (length (Scanner.losses_risinglows_abc s))
  /\ Nat.divide 5 (length (Scanner.wins_risinglows_ab s))
  /\ Nat.divide 5 (length (Scanner.losses_risinglows_ab s))
  /\ Nat.divide 5 (length (Scanner.dropped_wins_risinglows_ab s))
  /\ Nat.divide 5 (length (Scanner.dropped_losses_risinglows_ab s)).

(** Every increment of the six lists is a fraction: at least 0, below 1. *)
Definition fractions (G : Grid.Lists) : Prop :=
  forall m,
    In m (Grid.axlist G ++ Grid.axxlist G ++ Grid.aclist G
          ++ Grid.bxlist G ++ Grid.bxxlist G ++ Grid.cdlist G) ->
    (0 <= m /\ m < 1)%Q.

(** A recorded value of the abcd lists: a price of at least 11, or a
    multiplier [1 + m] of a fraction [m]. *)
Definition price_or_multiplier (v : Q) : Prop :=
  (11 <= v)%Q \/ (1 <= v /\ v < 2)%Q.

(** How often the ab tests repeat one sample: once per combination of the
    four loop variables they do not read. *)
Definition ab_repeats (G : Grid.Lists) : nat :=
  length (Grid.axxlist G) * (length (Grid.aclist G)
    * (length (Grid.bxlist G) * length (Grid.bxxlist G))).

(** A position marked held whose bought price is [None] or zero. *)
Definition wedged (st : Live.State) : Prop :=
  Live.held st = true
  /\ match Live.bought_price (Live.position st) with
     | Some bought => Qeq_bool bought 0 = true
     | None => True
     end.


End Invariants.

(** ** More concrete inputs *)

Module MoreInputs.
Import Live.

Local Open Scope Q_scope.

(** A position bought at 100 at time 1000, seen 59 seconds later at 101. *)
Definition early_gain : State :=
  mkState (mkSwitches (Some true) (Some false) (Inputs.only ABCD) (Inputs.only ABCD))
          (mkPosition true None 1000 (Some 100) 0 None 50 (Some (1 # 2)))
          (mkClock 1059 1059 1059 101 101) Inputs.no_marks
          (mkPast None None None None None None) Inputs.no_histories [].

(** The same position 60 seconds after the buy, at 100.5. *)
Definition target_reached : State :=
  mkState (mkSwitches (Some true) (Some false) (Inputs.only ABCD) (Inputs.only ABCD))
          (mkPosition true None 1000 (Some 100) 0 None 50 (Some (1 # 2)))
          (mkClock 1060 1060 1060 (1005 # 10) (1005 # 10)) Inputs.no_marks
          (mkPast None None None None None None) Inputs.no_histories [].

(** The same position 120 seconds after the buy, at 100.1. *)
Definition time_up : State :=
  mkState (mkSwitches (Some true) (Some false) (Inputs.only ABCD) (Inputs.only ABCD))
          (mkPosition true None 1000 (Some 100) 0 None 50 (Some (1 # 2)))
          (mkClock 1120 1120 1120 (1001 # 10) (1001 # 10)) Inputs.no_marks
          (mkPast None None None None None None) Inputs.no_histories [].

(** A position marked held with a bought price of zero. *)
Definition bought_at_zero : State :=
  mkState (mkSwitches (Some true) (Some false) (Inputs.only ABCD) (Inputs.only ABCD))
          (mkPosition true None 1000 (Some 0) 0 None 50 (Some 0))
          (mkClock 1060 1060 1060 97 97) Inputs.no_marks
          (mkPast None None None None None None) Inputs.no_histories [].

(** An exchange whose order calls all fail. *)
Definition failing_exchange : Exchange :=
  mkExchange 1120 (1001 # 10) 1000 (1 # 2) false false false.

(** A position held for ten seconds, as a module-level section sees it. *)
Definition held_10s : State :=
  mkState (mkSwitches (Some true) (Some false) (Inputs.only ABC) (Inputs.only ABC))
          (mkPosition true None 1000 (Some 100) 0 None 50 (Some (1 # 2)))
          (mkClock 1010 1010 1010 101 101) Inputs.no_marks Inputs.rising
          Inputs.no_histories [].


Definition readings : TimeMarks.Readings :=
  TimeMarks.mkReadings 1700000000 103 61 61 61.

(** The globals as the script's calibration leaves them: both bot switches
    as set at the top of the script, no model flag set, no position. *)
Definition uncalibrated : State :=
  mkState (mkSwitches (Some true) (Some false) Inputs.no_flags Inputs.no_flags)
          Inputs.flat_position (mkClock 7260 7260 7260 103 103) Inputs.three_marks
          Inputs.rising Inputs.no_histories [].

(** The abcd model enabled, no position, the marks as two calls of
    [update_time_marks] in hourly mode leave them. *)
Definition after_two_calls : State :=
  mkState (mkSwitches (Some true) (Some false) (Inputs.only ABCD) (Inputs.only ABCD))
          Inputs.flat_position (mkClock 7260 7260 7260 103 103)
          (TimeMarks.marks_of
             (TimeMarks.calls [(Some true, Some false, readings); (Some true, Some false, readings)]
                (TimeMarks.start 0)))
          Inputs.rising Inputs.no_histories [].


End MoreInputs.

(** * Properties *)

Unset Implicit Arguments.

(** ** Comparisons *)


Lemma ge_iff x y : (x >=?q y) = true <-> (y <= x)%Q.
Proof. apply Qle_bool_iff. Qed.

Lemma lt_iff x y : (x <?q y) = true <-> (x < y)%Q.
Proof.
  unfold Cmp.lt. rewrite negb_true_iff, <- not_true_iff_false, Qle_bool_iff.
  split; [apply Qnot_le_lt | apply Qlt_not_le].
Qed.

Lemma gt_iff x y : (x >?q y) = true <-> (y < x)%Q.
Proof. apply (lt_iff y x). Qed.

Lemma ge_false_iff x y : (x >=?q y) = false <-> (x < y)%Q.
Proof.
  rewrite <- lt_iff. unfold Cmp.lt, Cmp.ge.
  destruct (Qle_bool y x); simpl; intuition congruence.
Qed.

Lemma le_false_iff x y : (x <=?q y) = false <-> (y < x)%Q.
Proof. apply (ge_false_iff y x). Qed.

Lemma for_each_nil {A S : Type} (body : A -> S -> S) (s : S) : for_each [] body s = s.
Proof. reflexivity. Qed.

Lemma for_each_cons {A S : Type} (x : A) (l : list A) (body : A -> S -> S) (s : S) :
  for_each (x :: l) body s = for_each l body (body x s).
Proof. reflexivity. Qed.

(** ** The scanner stays inside the price history *)

Section ScannerBounds.
Import Scanner.
Variable G : Grid.Lists.
Variable hist : list Q.

Lemma windows_seq (n start : nat) (r : Run) :
  windows G hist (seq start n) r
  = Some (mkRun
            (for_each (seq start (Nat.min n (length hist - 3 - start)))
                      (window_body G hist) (samples r))
            (reads r ++ flat_map window_reads
                          (seq start (Nat.min n (length hist - 3 - start))))).
Proof.
  revert start r. induction n as [|n IH]; intros start r.
  - simpl. rewrite app_nil_r. now destruct r.
  - cbn [seq windows].
    destruct (Nat.leb_spec (length hist) (start + 3)) as [Hshort|Hlong].
    + replace (length hist - 3 - start) with 0 by lia.
      rewrite Nat.min_0_r. simpl. rewrite app_nil_r. now destruct r.
    + rewrite (nth_error_nth' hist 0%Q (n := start)) by lia.
      rewrite (nth_error_nth' hist 0%Q (n := start + 1)) by lia.
      rewrite (nth_error_nth' hist 0%Q (n := start + 2)) by lia.
      rewrite (nth_error_nth' hist 0%Q (n := start + 3)) by lia.
      rewrite IH. cbn [samples reads].
      replace (length hist - 3 - start) with (S (length hist - 3 - S start)) by lia.
      rewrite <- Nat.succ_min_distr. cbn [seq flat_map].
      rewrite for_each_cons, <- app_assoc. reflexivity.
Qed.

(** The trier visits exactly the windows [0 .. len - 4]. *)
Lemma Cartesian_Trier_windows :
  Cartesian_Trier G hist
  = Some (mkRun (for_each (seq 0 (length hist - 3)) (window_body G hist) no_samples)
                (flat_map window_reads (seq 0 (length hist - 3)))).
Proof.
  unfold Cartesian_Trier. rewrite windows_seq. cbn [samples reads app].
  rewrite Nat.sub_0_r. now rewrite Nat.min_r by lia.
Qed.
End ScannerBounds.

(** C4.  For every price history and every threshold grid the scan ends
    without an index error; every subscript [j] it evaluates, window point
    or result point, satisfies [j + 1 <= len(history)]; and a history of
    fewer than four prices (the empty one included) yields empty win and
    loss lists for every shape. *)
Theorem C4_scan_within_bounds (G : Grid.Lists) (hist : list Q) :
  exists r,
    Scanner.Cartesian_Trier G hist = Some r
    /\ (forall j, In j (Scanner.reads r) -> j + 1 <= length hist)
    /\ (length hist < 4 ->
        Scanner.samples r = Scanner.no_samples /\ Scanner.reads r = []).
Proof.
  eexists. split; [apply Cartesian_Trier_windows|]. cbn [Scanner.samples Scanner.reads].
  split.
  - intros j Hj. apply in_flat_map in Hj. destruct Hj as (i & Hi & Hj).
    apply in_seq in Hi. unfold Scanner.window_reads in Hj. simpl in Hj.
    intuition lia.
  - intros Hshort. replace (length hist - 3) with 0 by lia. split; reflexivity.
Qed.

Lemma C4_scan_within_bounds_witness :
  exists r,
    Scanner.Cartesian_Trier Inputs.short_grid [100; 102; 101]%Q = Some r
    /\ (forall j, In j (Scanner.reads r) -> j + 1 <= 3)
    /\ Scanner.samples r = Scanner.no_samples /\ Scanner.reads r = [].
Proof.
  destruct (C4_scan_within_bounds Inputs.short_grid [100; 102; 101]%Q)
    as (r & Hrun & Hreads & Hshort).
  exists r. split; [exact Hrun|]. split; [exact Hreads|].
  apply Hshort. simpl. lia.
Defined.

(** ** How the trier applies a multiplier *)

(** The trier's own test of the win outcome never reads the multiplier as
    a factor: the bound on [b] is [1 + ax * a], one plus the product. *)
Lemma ab_match_unfold (a b ax : Q) :
  Scanner.ab_match a b ax = true <-> (a < b /\ 1 + ax * a <= b)%Q.
Proof.
  unfold Scanner.ab_match. rewrite andb_true_iff, lt_iff, ge_iff. reflexivity.
Qed.

Lemma spec_ab_match_unfold (a b ax : Q) :
  Spec.spec_ab_match a b ax = true <-> (a < b /\ (1 + ax) * a <= b)%Q.
Proof.
  unfold Spec.spec_ab_match. rewrite andb_true_iff, lt_iff, ge_iff. reflexivity.
Qed.

(** C6.  On the window [100, 100.1, 100.2, 100.3] with [ax = 0.002] and
    [cd = 0.005] the trier's ab test holds and it records a win sample,
    because [b >= 1+ax * a] is [100.1 >= 1.2]; with the multiplier applied
    as [(1+m) * reference] the test is [100.1 >= 100.2] and fails. *)
Theorem C6_multiplier_precedence :
  Scanner.ab_match 100 (1001 # 10) (2 # 1000) = true
  /\ Spec.spec_ab_match 100 (1001 # 10) (2 # 1000) = false
  /\ Scanner.ab_win 100 (1001 # 10) (1002 # 10) (2 # 1000) (5 # 1000) = true
  /\ Spec.spec_ab_win 100 (1001 # 10) (1002 # 10) (2 # 1000) (5 # 1000) = false
  /\ option_map (fun r => Scanner.wins_risinglows_ab (Scanner.samples r))
       (Scanner.Cartesian_Trier Inputs.short_grid
          [100; 1001 # 10; 1002 # 10; 1003 # 10]%Q)
     = Some [100; 1 + (2 # 1000); 1001 # 10; 1002 # 10; 1 + (5 # 1000)]%Q.
Proof. repeat split; vm_compute; reflexivity. Qed.

(** ** Viability and the two live gates *)

Lemma ratio_ok_unfold (totalcount : nat) (wins : list Q) :
  Viability.ratio_ok totalcount wins = true
  <-> 2000 <= totalcount
      /\ (70 # 100 <= len wins / inject_Z (Z.of_nat totalcount))%Q.
Proof.
  unfold Viability.ratio_ok. rewrite andb_true_iff, Nat.leb_le, ge_iff. reflexivity.
Qed.

(** The module-level gate of a trading section asks for both flags, so a
    section whose flags come from [viability] trades only on a passed ratio
    and a non-empty threshold list. *)
Lemma section_gate_needs_both (totalcount : nat) (wins most_win : list Q) :
  let flags := Viability.viability totalcount wins most_win in
  is_True (Viability.model flags)
  && is_True (Viability.range_constraints_gotten_a flags) = true ->
  2000 <= totalcount
  /\ (70 # 100 <= len wins / inject_Z (Z.of_nat totalcount))%Q
  /\ most_win <> [].
Proof.
  unfold Viability.viability.
  destruct (Viability.ratio_ok totalcount wins) eqn:Hratio; simpl; [|discriminate].
  apply ratio_ok_unfold in Hratio. destruct Hratio as [Hcount Hfrac].
  destruct most_win; simpl; [discriminate|].
  intros _. repeat split; auto. discriminate.
Qed.


(** ** One position at a time *)

(** The buy of the module-level sections never reads [position_held]: on
    any state it logs a market buy and marks the position held. *)
Lemma section_buy_ignores_position (ex : Live.Exchange) (st : Live.State) :
  Live.orders (Live.final (Live.section_buy ex st))
  = Live.orders st ++ [Live.MarketBuy (Live.calculate_trade_amount ex)]
  /\ Live.held (Live.final (Live.section_buy ex st)) = true.
Proof.
  unfold Live.section_buy, Live.seq_then, Live.assign, Live.bind.
  cbn. destruct (Qeq_bool _ 0); split; reflexivity.
Qed.


(** ** Reasoning about sections *)

(** Unfolds the statement combinators and the reads and writes of globals,
    leaving the arithmetic tests as they are. *)
Ltac live :=
  cbv [Live.seq_then Live.assign Live.bind Live.final Live.If Live.and_then Live.pure
       Live.held_c Live.tried_c Live.since Live.gate Live.against_bought
       Live.held Live.price Live.place
       Live.coinbase_market_sell Live.coinbase_limit_sell
       Live.market_sell_amount_held Live.limit_sell_amount_held
       Live.limit_sell_005 Live.market_sell_005 Live.price_le_0995
       Live.sold_at_price_now Live.closed Live.fallback_amount
       Live.set_position_held Live.set_tried_limit_sell Live.set_bought_time
       Live.set_bought_price Live.set_sold_time Live.set_sold_price
       Live.set_trade_amount_usd Live.set_btc_amount_held
       Live.set_hourly_bot Live.set_minutely_bot Live.set_model
       Live.set_clock Live.set_marks Live.set_histories
       Live.on_position Live.on_switches
       Live.wins_of Live.losses_of
       Live.switches Live.position Live.clock Live.marks Live.past Live.histories
       Live.orders
       Live.hourly_bot Live.minutely_bot Live.model Live.range_constraints_gotten_a
       Live.position_held Live.tried_limit_sell Live.bought_time Live.bought_price
       Live.sold_time Live.sold_price Live.trade_amount_usd Live.btc_amount_held
       Live.current_time Live.time_now Live.time_now_a Live.current_price Live.price_now
       Live.win_history Live.loss_history
       option_map].


Lemma If_true (c : Live.Cond) (body : Live.State -> Live.Result) (st : Live.State) :
  c st = Some true -> Live.If c body st = body st.
Proof. unfold Live.If. now intros ->. Qed.

Lemma If_false (c : Live.Cond) (body : Live.State -> Live.Result) (st : Live.State) :
  c st = Some false -> Live.If c body st = Live.Ok st.
Proof. unfold Live.If. now intros ->. Qed.

Lemma upd_same {V : Type} (f : Live.Pattern -> V) (p : Live.Pattern) (v : V) :
  Live.upd f p v p = v.
Proof. unfold Live.upd. now destruct p. Qed.

Lemma upd_other {V : Type} (f : Live.Pattern -> V) (p q : Live.Pattern) (v : V) :
  p <> q -> Live.upd f p v q = f q.
Proof. unfold Live.upd. destruct p, q; simpl; congruence. Qed.

Lemma len_plus {A : Type} (l1 l2 : list A) :
  (len l1 + len l2 == inject_Z (Z.of_nat (length l1 + length l2)))%Q.
Proof. unfold len. now rewrite Nat2Z.inj_add, inject_Z_plus. Qed.

(** ** The win-rate floor *)

(** The deactivation test on its own: run on a pattern with at least 20
    recorded wins plus losses and a win rate, wins over wins plus losses,
    below 0.60, it sets the pattern's model flag to [False] and, if a
    position is held, places one market sell of the held size in the same
    run and clears [position_held]; with no position held it places no
    order.  It never raises. *)
Lemma evaluate_disables_and_flattens
    (p : Live.Pattern) (ex : Live.Exchange) (st : Live.State) :
  20 <= Live.total_win_loss p st ->
  (Live.win_rate p st < 60 # 100)%Q ->
  (Live.win_rate p st
   == len (Live.wins_of p st) / (len (Live.wins_of p st) + len (Live.losses_of p st)))%Q
  /\ exists st',
       Live.evaluate p ex st = Live.Ok st'
       /\ Live.model (Live.switches st') p = Some false
       /\ Live.held st' = false
       /\ Live.orders st'
          = if Live.held st
            then Live.orders st ++ [Live.MarketSell (Live.flatten_size ex st)]
            else Live.orders st.
Proof.
  intros Htotal Hrate. split.
  - unfold Live.win_rate. destruct (Nat.ltb_spec 0 (Live.total_win_loss p st)); [|lia].
    unfold Live.total_win_loss. now rewrite len_plus.
  - unfold Live.evaluate. rewrite If_true.
    2:{ unfold Live.pure. f_equal. apply andb_true_iff. split.
        - now apply lt_iff.
        - now apply Nat.leb_le. }
    unfold Live.flatten_size. destruct st as [sw [h tried bt bp stime sp amt size] ck mk pa hi os].
    live. destruct h.
    + destruct size as [size|]; [destruct (Qeq_bool size 0)|];
        (eexists; split; [reflexivity|]); live; rewrite upd_same; auto.
    + eexists; split; [reflexivity|]. live. rewrite upd_same. auto.
Qed.

Lemma evaluate_disables_and_flattens_witness :
  exists st',
    Live.evaluate Live.ABCD Inputs.exchange Inputs.degraded = Live.Ok st'
    /\ Live.model (Live.switches st') Live.ABCD = Some false
    /\ Live.held st' = false
    /\ Live.orders st' = [Live.MarketSell (1 # 2)].
Proof.
  destruct (evaluate_disables_and_flattens
              Live.ABCD Inputs.exchange Inputs.degraded) as [_ (st' & Hrun & Hoff & Hflat & Hsold)].
  - vm_compute. lia.
  - vm_compute. reflexivity.
  - exists st'. repeat split; assumption.
Defined.

(** ** The kill switch *)

Lemma kill_switch_trips (count : nat) (results : list Q) (st : Live.State) :
  20 <= count -> 100 <= length results ->
  Live.kill_switch count results st
  = Live.Ok (Live.set_minutely_bot (Some false) (Live.set_hourly_bot (Some false)
              (Live.set_minutely_bot (Some false) (Live.set_hourly_bot (Some false) st)))).
Proof.
  intros Hcount Hresults. unfold Live.kill_switch.
  replace ((20 <=? count) && (100 <=? length results)) with true.
  - reflexivity.
  - symmetry. apply andb_true_iff. split; now apply Nat.leb_le.
Qed.

(** A section whose gate is closed only resets [tried_limit_sell]. *)
Lemma gate_closed_by_bot (bot : Live.Switches -> option bool) (p : Live.Pattern)
    (st : Live.State) :
  is_True (bot (Live.switches st)) = false -> Live.gate bot p st = Some false.
Proof. unfold Live.gate, Live.pure. now intros ->. Qed.

Lemma gate_closed_by_model (bot : Live.Switches -> option bool) (p : Live.Pattern)
    (st : Live.State) :
  is_True (Live.model (Live.switches st) p) = false -> Live.gate bot p st = Some false.
Proof. unfold Live.gate, Live.pure. intros ->. now rewrite andb_false_r. Qed.

Lemma log_position_cases (st : Live.State) :
  Live.log_position st = Live.Ok st \/ Live.log_position st = Live.Raised st.
Proof.
  unfold Live.log_position, Live.If, Live.held_c, Live.pure.
  destruct (Live.held st); [|now left].
  destruct (Live.bought_price (Live.position st)) as [bought|]; [|now right].
  destruct (Qeq_bool bought 0); auto.
Qed.

Section InactiveCycle.
Variable update_time_marks : Live.Exchange -> Live.State -> Live.Marks.

(** With both bot switches off a cycle runs no strategy: it places no
    order and leaves the switches and the position as they were. *)
Lemma cycle_inactive (ex : Live.Exchange) (st : Live.State) :
  is_True (Live.hourly_bot (Live.switches st)) = false ->
  is_True (Live.minutely_bot (Live.switches st)) = false ->
  Live.orders (Live.cycle update_time_marks ex st) = Live.orders st
  /\ Live.switches (Live.cycle update_time_marks ex st) = Live.switches st
  /\ Live.position (Live.cycle update_time_marks ex st) = Live.position st.
Proof.
  intros Hhourly Hminutely.
  unfold Live.cycle, Live.execute_bot_cycle, Live.seq_then, Live.assign, Live.bind.
  set (st2 := Live.set_marks _ (Live.set_clock _ st)).
  destruct (log_position_cases st2) as [-> | ->]; [|now split].
  change (Live.switches st2) with (Live.switches st).
  rewrite Hhourly, Hminutely. now split.
Qed.

Lemma main_loop_inactive (answers : list Live.Exchange) (st : Live.State) :
  is_True (Live.hourly_bot (Live.switches st)) = false ->
  is_True (Live.minutely_bot (Live.switches st)) = false ->
  Live.orders (Live.main_loop update_time_marks answers st) = Live.orders st
  /\ Live.switches (Live.main_loop update_time_marks answers st) = Live.switches st.
Proof.
  revert st. induction answers as [|ex answers IH]; intros st Hhourly Hminutely.
  - auto.
  - change (Live.main_loop update_time_marks (ex :: answers) st)
      with (Live.main_loop update_time_marks answers
              (Live.cycle update_time_marks ex st)).
    destruct (cycle_inactive ex st Hhourly Hminutely) as (Horders & Hswitches & _).
    destruct (IH (Live.cycle update_time_marks ex st)) as [IHorders IHswitches].
    + now rewrite Hswitches.
    + now rewrite Hswitches.
    + split; congruence.
Qed.
End InactiveCycle.

(** The kill-switch test on its own: given a count of slippage faults of
    at least 20 and at least 100 recorded results, it sets [hourly_bot] and
    [minutely_bot] to [False], whatever the per-pattern flags are.  From
    that state on no order is placed: not by any number of bot cycles,
    whatever the exchange answers, and not by any of the four module-level
    trading sections; and the two switches stay off. *)
Lemma kill_switch_stops_all_buying
    (update_time_marks : Live.Exchange -> Live.State -> Live.Marks)
    (count : nat) (results : list Q) (st : Live.State) :
  20 <= count ->
  100 <= length results ->
  exists st',
    Live.kill_switch count results st = Live.Ok st'
    /\ Live.hourly_bot (Live.switches st') = Some false
    /\ Live.minutely_bot (Live.switches st') = Some false
    /\ Live.orders st' = Live.orders st
    /\ (forall answers,
          Live.orders (Live.main_loop update_time_marks answers st') = Live.orders st'
          /\ Live.switches (Live.main_loop update_time_marks answers st')
             = Live.switches st')
    /\ (forall ex,
          Live.orders (Live.final (Live.abcd_then_a_model_buys_and_sells st'))
          = Live.orders st'
          /\ Live.orders (Live.final (Live.abc_and_then_model_buys_and_sells ex st'))
             = Live.orders st'
          /\ Live.orders (Live.final (Live.ab_and_then_model_buys_and_sells ex st'))
             = Live.orders st'
          /\ Live.orders (Live.final (Live.aandupspike_and_then_model_buy_sell ex st'))
             = Live.orders st').
Proof.
  intros Hcount Hresults. eexists. split; [now apply kill_switch_trips|].
  split; [reflexivity|]. split; [reflexivity|]. split; [reflexivity|]. split.
  - intros answers. now apply main_loop_inactive.
  - intros ex.
    unfold Live.abcd_then_a_model_buys_and_sells, Live.abc_and_then_model_buys_and_sells,
      Live.ab_and_then_model_buys_and_sells, Live.aandupspike_and_then_model_buy_sell,
      Live.seq_then, Live.assign, Live.bind.
    rewrite !If_false by (now apply gate_closed_by_bot).
    repeat split.
Qed.

Lemma kill_switch_stops_all_buying_witness :
  exists st',
    Live.kill_switch 20 (repeat 1%Q 100) Inputs.abc_ab_enabled_flat = Live.Ok st'
    /\ Live.hourly_bot (Live.switches st') = Some false
    /\ Live.minutely_bot (Live.switches st') = Some false
    /\ Live.orders
         (Live.main_loop Inputs.keep_marks [Inputs.exchange; Inputs.exchange] st')
       = Live.orders st'.
Proof.
  destruct (kill_switch_stops_all_buying Inputs.keep_marks 20 (repeat 1%Q 100)
              Inputs.abc_ab_enabled_flat) as (st' & Hrun & Hh & Hm & _ & Hloop & _).
  - lia.
  - vm_compute. lia.
  - exists st'. repeat split; try assumption.
    apply (Hloop [Inputs.exchange; Inputs.exchange]).
Defined.



(** ** One position, four trackers *)

Lemma win_or_loss_not_both (st : Live.State) :
  length (Live.recorded_wins st) + length (Live.recorded_losses st) <= 1.
Proof.
  unfold Live.recorded_wins, Live.recorded_losses, Live.sold_against_bought.
  destruct (negb (Live.held st)); simpl; [|lia].
  destruct (Live.sold_price (Live.position st)) as [sold|]; simpl; [|lia].
  destruct (Live.bought_price (Live.position st)) as [bought|]; simpl; [|lia].
  destruct (sold >?q bought) eqn:Hgt, (sold <?q bought) eqn:Hlt; simpl; try lia.
  apply gt_iff in Hgt. apply lt_iff in Hlt. lra.
Qed.

(** As the script stands the two history lists are created anew before
    each recording: a tracker leaves exactly the outcome of the last trade
    in its own lists, never reaches twenty entries, and so changes nothing
    else. *)
Lemma win_loss_math_effect (p : Live.Pattern) (ex : Live.Exchange) (st : Live.State) :
  exists st',
    Live.win_loss_math p ex st = Live.Ok st'
    /\ Live.wins_of p st' = Live.recorded_wins st
    /\ Live.losses_of p st' = Live.recorded_losses st
    /\ (forall q, q <> p ->
          Live.wins_of q st' = Live.wins_of q st
          /\ Live.losses_of q st' = Live.losses_of q st)
    /\ Live.switches st' = Live.switches st
    /\ Live.position st' = Live.position st
    /\ Live.orders st' = Live.orders st.
Proof.
  unfold Live.win_loss_math, Live.new_histories, Live.record_outcome, Live.seq_then,
    Live.assign, Live.bind.
  set (st1 := Live.set_histories p _ _ (Live.set_histories p [] [] st)).
  assert (Hwins : Live.wins_of p st1 = Live.recorded_wins st).
  { unfold st1, Live.wins_of, Live.recorded_wins. cbn. now rewrite !upd_same. }
  assert (Hlosses : Live.losses_of p st1 = Live.recorded_losses st).
  { unfold st1, Live.losses_of, Live.recorded_losses. cbn. now rewrite !upd_same. }
  unfold Live.evaluate. rewrite If_false.
  - exists st1. repeat split; auto;
      unfold st1, Live.wins_of, Live.losses_of; cbn; now rewrite !upd_other by congruence.
  - unfold Live.pure. f_equal. apply andb_false_iff. right.
    apply Nat.leb_gt. unfold Live.total_win_loss. rewrite Hwins, Hlosses.
    pose proof (win_or_loss_not_both st). lia.
Qed.

(** C3.  With fifteen wins and twenty losses on record for the abcd
    pattern (35 in all, a win rate of 15/35, below 0.60) and a position
    held, the deactivation test run on those lists switches the model off
    and sells the held half coin.  The tracker as the script has it first
    creates both history lists anew, so it records and judges at most one
    entry: on this state it leaves the model flag [True], the position
    held and places no order, and on every state it leaves the switches,
    the position and the orders as they were. *)
Theorem C3_tracker_forgets_recorded_history :
  Live.total_win_loss Live.ABCD Inputs.degraded = 35
  /\ (Live.win_rate Live.ABCD Inputs.degraded < 60 # 100)%Q
  /\ Live.held Inputs.degraded = true
  /\ Live.model
       (Live.switches (Live.final (Live.evaluate Live.ABCD Inputs.exchange Inputs.degraded)))
       Live.ABCD = Some false
  /\ Live.orders (Live.final (Live.evaluate Live.ABCD Inputs.exchange Inputs.degraded))
     = [Live.MarketSell (1 # 2)]
  /\ Live.model
       (Live.switches
          (Live.final (Live.win_loss_math Live.ABCD Inputs.exchange Inputs.degraded)))
       Live.ABCD = Some true
  /\ Live.held (Live.final (Live.win_loss_math Live.ABCD Inputs.exchange Inputs.degraded))
     = true
  /\ Live.orders (Live.final (Live.win_loss_math Live.ABCD Inputs.exchange Inputs.degraded))
     = []
  /\ (forall p ex st,
        exists st',
          Live.win_loss_math p ex st = Live.Ok st'
          /\ Live.total_win_loss p st' <= 1
          /\ Live.switches st' = Live.switches st
          /\ Live.position st' = Live.position st
          /\ Live.orders st' = Live.orders st).
Proof.
  split; [reflexivity|]. split; [vm_compute; reflexivity|]. split; [reflexivity|].
  split; [vm_compute; reflexivity|]. split; [vm_compute; reflexivity|].
  split; [vm_compute; reflexivity|]. split; [vm_compute; reflexivity|].
  split; [vm_compute; reflexivity|].
  intros p ex st.
  destruct (win_loss_math_effect p ex st)
    as (st' & Hrun & Hwins & Hlosses & _ & Hswitches & Hposition & Horders).
  exists st'. repeat split; try assumption.
  unfold Live.total_win_loss. rewrite Hwins, Hlosses. apply win_or_loss_not_both.
Qed.

Lemma abcd_section_closed (st : Live.State) :
  is_True (Live.model (Live.switches st) Live.ABCD) = false ->
  Live.abcd_then_a_model_buys_and_sells st = Live.Ok (Live.set_tried_limit_sell None st).
Proof.
  intros Hoff. unfold Live.abcd_then_a_model_buys_and_sells, Live.seq_then, Live.assign, Live.bind.
  now rewrite If_false by (apply gate_closed_by_model; exact Hoff).
Qed.

Lemma abc_section_closed (ex : Live.Exchange) (st : Live.State) :
  is_True (Live.model (Live.switches st) Live.ABC) = false ->
  Live.abc_and_then_model_buys_and_sells ex st = Live.Ok (Live.set_tried_limit_sell None st).
Proof.
  intros Hoff. unfold Live.abc_and_then_model_buys_and_sells, Live.seq_then, Live.assign, Live.bind.
  now rewrite If_false by (apply gate_closed_by_model; exact Hoff).
Qed.

Lemma ab_section_closed (ex : Live.Exchange) (st : Live.State) :
  is_True (Live.model (Live.switches st) Live.AB) = false ->
  Live.ab_and_then_model_buys_and_sells ex st = Live.Ok (Live.set_tried_limit_sell None st).
Proof.
  intros Hoff. unfold Live.ab_and_then_model_buys_and_sells, Live.seq_then, Live.assign, Live.bind.
  now rewrite If_false by (apply gate_closed_by_model; exact Hoff).
Qed.

Lemma aspike_section_closed (ex : Live.Exchange) (st : Live.State) :
  is_True (Live.model (Live.switches st) Live.ASpike) = false ->
  Live.aandupspike_and_then_model_buy_sell ex st = Live.Ok (Live.set_tried_limit_sell None st).
Proof.
  intros Hoff. unfold Live.aandupspike_and_then_model_buy_sell, Live.seq_then, Live.assign, Live.bind.
  now rewrite If_false by (apply gate_closed_by_model; exact Hoff).
Qed.

(** A closed section followed by its tracker. *)
Lemma closed_section_then_tracker (p : Live.Pattern) (ex : Live.Exchange) (st : Live.State) :
  exists st',
    Live.win_loss_math p ex (Live.set_tried_limit_sell None st) = Live.Ok st'
    /\ Live.wins_of p st' = Live.recorded_wins st
    /\ Live.losses_of p st' = Live.recorded_losses st
    /\ (forall q, q <> p ->
          Live.wins_of q st' = Live.wins_of q st
          /\ Live.losses_of q st' = Live.losses_of q st)
    /\ Live.switches st' = Live.switches st
    /\ Live.recorded_wins st' = Live.recorded_wins st
    /\ Live.recorded_losses st' = Live.recorded_losses st
    /\ Live.orders st' = Live.orders st.
Proof.
  destruct (win_loss_math_effect p ex (Live.set_tried_limit_sell None st))
    as (st' & Hrun & Hw & Hl & Hother & Hsw & Hpos & Hord).
  exists st'. repeat split; auto; try apply Hother; auto.
  - unfold Live.recorded_wins, Live.sold_against_bought, Live.held. now rewrite Hpos.
  - unfold Live.recorded_losses, Live.sold_against_bought, Live.held. now rewrite Hpos.
Qed.



(** ** The stop loss and the panic sell *)



(** With a position held, [minutely_buy] does nothing. *)
Lemma minutely_buy_held (ex : Live.Exchange) (st : Live.State) :
  Live.held st = true -> Live.minutely_buy ex st = Live.Ok st.
Proof.
  intros Hheld. unfold Live.minutely_buy.
  destruct (Live.price_1_minute_ago (Live.past st)); [|reflexivity].
  apply If_false. unfold Live.pure. now rewrite Hheld, andb_false_r.
Qed.

(** With a position held, [hourly_buy] does nothing, unless a subscript of
    [price_mark_list] is out of range. *)
Lemma hourly_buy_held (ex : Live.Exchange) (st : Live.State) :
  Live.held st = true ->
  Live.hourly_buy ex st = Live.Ok st \/ Live.hourly_buy ex st = Live.Raised st.
Proof.
  intros Hheld. unfold Live.hourly_buy.
  destruct (3 <=? _); [|now left].
  destruct (Live.mark_price _ _); [|now right].
  destruct (Live.mark_price _ _); [|now right].
  destruct (Live.mark_price _ _); [|now right].
  destruct (_ && _); [|now left].
  left. apply If_false. unfold Live.pure. now rewrite Hheld, andb_false_r.
Qed.





(** ** The ceiling buckets, the second judgement and the accepted band *)






(** ** The strategy functions buy only from a flat position *)

(** With a position held, neither strategy function places a buy: the
    orders it adds, if any, are sells. *)
Lemma strategy_sells_adds_no_buy (ex : Live.Exchange) (st : Live.State) :
  filter Live.is_buy (Live.orders (Live.final (Live.strategy_sells ex st)))
  = filter Live.is_buy (Live.orders st).
Proof.
  unfold Live.strategy_sells, Live.If, Live.held_c, Live.pure.
  destruct (Live.held st); [|reflexivity].
  destruct (Live.bought_price (Live.position st)) as [bought|]; [|reflexivity].
  destruct (Qeq_bool bought 0); [reflexivity|]. cbv zeta.
  unfold Live.seq_then, Live.market_sell_amount_held, Live.limit_sell_amount_held,
    Live.coinbase_market_sell, Live.coinbase_limit_sell, Live.bind, Live.If, Live.pure.
  destruct (_ && _); [|destruct (120 <=? _)%Z; [|destruct (_ <=?q _)]];
    try reflexivity;
    (destruct (Live.btc_amount_held (Live.position st)); [|reflexivity]);
    [destruct (Live.limit_sell_result ex) | destruct (Live.market_sell_result ex)
     | destruct (Live.market_sell_result ex)];
    cbn; rewrite filter_app; cbn; now rewrite app_nil_r.
Qed.

Lemma execute_hourly_strategy_held_no_buy (ex : Live.Exchange) (st : Live.State) :
  Live.held st = true ->
  filter Live.is_buy (Live.orders (Live.final (Live.execute_hourly_strategy ex st)))
  = filter Live.is_buy (Live.orders st).
Proof.
  intros Hheld. unfold Live.execute_hourly_strategy, Live.seq_then.
  destruct (hourly_buy_held ex st Hheld) as [-> | ->]; [|reflexivity].
  apply strategy_sells_adds_no_buy.
Qed.

Lemma execute_minutely_strategy_held_no_buy (ex : Live.Exchange) (st : Live.State) :
  Live.held st = true ->
  filter Live.is_buy (Live.orders (Live.final (Live.execute_minutely_strategy ex st)))
  = filter Live.is_buy (Live.orders st).
Proof.
  intros Hheld. unfold Live.execute_minutely_strategy, Live.seq_then.
  rewrite (minutely_buy_held ex st Hheld). apply strategy_sells_adds_no_buy.
Qed.

(** * Further properties of the calibration code *)

(** ** The increment grids *)

Lemma increments_nth (step : Q) (count k : nat) :
  k < count ->
  nth_error (Grid.increments step count) k
  = Some (step * (inject_Z (Z.of_nat k) + 1))%Q.
Proof.
  intros Hk. unfold Grid.increments.
  rewrite nth_error_map, (nth_error_nth' (seq 0 count) 0) by (now rewrite length_seq).
  now rewrite seq_nth.
Qed.

(** The grid of [count] increments of a positive [step] has [count]
    values, the k-th (from 0) being [step * (k + 1)]; the values are
    positive, at most [step * count], and strictly increasing, so no value
    occurs twice. *)
Theorem increments_form_a_grid (step : Q) (count : nat) :
  (0 < step)%Q ->
  length (Grid.increments step count) = count
  /\ (forall k, k < count ->
        nth_error (Grid.increments step count) k
        = Some (step * (inject_Z (Z.of_nat k) + 1))%Q)
  /\ (forall v, In v (Grid.increments step count) ->
        (0 < v /\ v <= step * inject_Z (Z.of_nat count))%Q)
  /\ (forall i j vi vj, i < j ->
        nth_error (Grid.increments step count) i = Some vi ->
        nth_error (Grid.increments step count) j = Some vj ->
        (vi < vj)%Q).
Proof.
  intros Hstep. split; [|split; [|split]].
  - unfold Grid.increments. now rewrite length_map, length_seq.
  - intros k Hk. now apply increments_nth.
  - intros v Hv. unfold Grid.increments in Hv. apply in_map_iff in Hv.
    destruct Hv as (k & <- & Hk). apply in_seq in Hk.
    assert (Hlo : (0 <= inject_Z (Z.of_nat k))%Q).
    { rewrite <- (Zle_Qle 0). lia. }
    assert (Hhi : (inject_Z (Z.of_nat k) + 1 <= inject_Z (Z.of_nat count))%Q).
    { change 1%Q with (inject_Z 1). rewrite <- inject_Z_plus, <- Zle_Qle. lia. }
    split.
    + apply Qmult_lt_0_compat; [assumption|lra].
    + apply Qmult_le_l; assumption.
  - intros i j vi vj Hij Hi Hj.
    assert (Hj' : j < count).
    { replace count with (length (Grid.increments step count))
        by (unfold Grid.increments; now rewrite length_map, length_seq).
      apply nth_error_Some. rewrite Hj. discriminate. }
    rewrite increments_nth in Hi, Hj by lia.
    injection Hi as <-. injection Hj as <-.
    apply Qmult_lt_l; [assumption|].
    apply Qplus_lt_l. rewrite <- Zlt_Qlt. lia.
Qed.

Lemma increments_form_a_grid_witness :
  length (Grid.axlist Grid.Increments_Generator) = 20
  /\ forall v, In v (Grid.axlist Grid.Increments_Generator) ->
       (0 < v /\ v <= (2 # 1000) * inject_Z (Z.of_nat 20))%Q.
Proof.
  destruct (increments_form_a_grid (2 # 1000) 20) as (Hlen & _ & Hrange & _).
  - reflexivity.
  - split; [exact Hlen | exact Hrange].
Defined.

(** ** What the trier records *)

Lemma for_each_unchanged {A S : Type} (l : list A) (body : A -> S -> S) (s : S) :
  (forall x s', body x s' = s') -> for_each l body s = s.
Proof.
  intros Hid. revert s. induction l as [|x l IH]; intros s; [reflexivity|].
  now rewrite for_each_cons, Hid.
Qed.

Lemma for_each_keeps {A S : Type} (Inv : S -> Prop) (l : list A) (body : A -> S -> S) (s : S) :
  (forall x s', In x l -> Inv s' -> Inv (body x s')) -> Inv s -> Inv (for_each l body s).
Proof.
  revert s. induction l as [|x l IH]; intros s Hbody Hs; [exact Hs|].
  rewrite for_each_cons. apply IH.
  - intros y s' Hy. apply Hbody. now right.
  - apply Hbody; [now left | exact Hs].
Qed.

(** An invariant of the sample lists that every try keeps, for prices of
    the history and multipliers of the lists, holds of what a run returns. *)
Lemma trier_keeps (G : Grid.Lists) (hist : list Q) (Inv : Scanner.Samples -> Prop) :
  Inv Scanner.no_samples ->
  (forall a b c d ax axx ac bx bxx cd s,
      In a hist -> In b hist -> In c hist -> In d hist ->
      In ax (Grid.axlist G) -> In axx (Grid.axxlist G) -> In ac (Grid.aclist G) ->
      In bx (Grid.bxlist G) -> In bxx (Grid.bxxlist G) -> In cd (Grid.cdlist G) ->
      Inv s -> Inv (Scanner.tries a b c d ax axx ac bx bxx cd s)) ->
  forall r, Scanner.Cartesian_Trier G hist = Some r -> Inv (Scanner.samples r).
Proof.
  intros Hinit Htry r Hrun. rewrite Cartesian_Trier_windows in Hrun.
  injection Hrun as <-. cbn [Scanner.samples].
  apply for_each_keeps; [|exact Hinit].
  intros i s Hi Hs. apply in_seq in Hi. unfold Scanner.window_body, Scanner.combinations.
  assert (Hin : forall k, k <= 3 -> In (nth (i + k) hist 0%Q) hist)
    by (intros k Hk; apply nth_In; lia).
  pose proof (Hin 0) as H0. rewrite Nat.add_0_r in H0.
  apply for_each_keeps; [|exact Hs]. intros ax s1 Hax Hs1.
  apply for_each_keeps; [|exact Hs1]. intros axx s2 Haxx Hs2.
  apply for_each_keeps; [|exact Hs2]. intros ac s3 Hac Hs3.
  apply for_each_keeps; [|exact Hs3]. intros bx s4 Hbx Hs4.
  apply for_each_keeps; [|exact Hs4]. intros bxx s5 Hbxx Hs5.
  apply for_each_keeps; [|exact Hs5]. intros cd s6 Hcd Hs6.
  apply Htry; auto.
Qed.

(** With any one of the six increment lists empty the innermost body never
    runs: whatever the price history, the trier returns ten empty lists. *)
Theorem empty_grid_records_nothing (G : Grid.Lists) (hist : list Q) :
  Grid.axlist G = [] \/ Grid.axxlist G = [] \/ Grid.aclist G = []
  \/ Grid.bxlist G = [] \/ Grid.bxxlist G = [] \/ Grid.cdlist G = [] ->
  exists r, Scanner.Cartesian_Trier G hist = Some r
            /\ Scanner.samples r = Scanner.no_samples.
Proof.
  intros Hempty. eexists. split; [apply Cartesian_Trier_windows|].
  cbn [Scanner.samples]. apply for_each_unchanged. intros i s.
  unfold Scanner.window_body, Scanner.combinations.
  destruct Hempty as [-> | [-> | [-> | [-> | [-> | ->]]]]];
    repeat first [ reflexivity | apply for_each_unchanged; intros ].
Qed.

Lemma empty_grid_records_nothing_witness :
  exists r,
    Scanner.Cartesian_Trier (Grid.mkLists [2 # 1000] [2 # 1000] [2 # 1000] [] [2 # 1000]
                                          [5 # 1000])%Q
                            [100; 102; 101; 103; 104]%Q = Some r
    /\ Scanner.samples r = Scanner.no_samples.
Proof.
  apply empty_grid_records_nothing. cbn. right. right. right. left. reflexivity.
Defined.

Lemma extend_if_divide (n : nat) (cond : bool) (lst group : list Q) :
  length group = n -> Nat.divide n (length lst) ->
  Nat.divide n (length (Scanner.extend_if cond lst group)).
Proof.
  intros Hgroup Hlst. unfold Scanner.extend_if. destruct cond; [|exact Hlst].
  rewrite length_app, Hgroup. apply Nat.divide_add_r; [exact Hlst | apply Nat.divide_refl].
Qed.

(** Whatever the history and the grid, each flat list the trier returns
    holds whole groups: the abcd lists groups of ten, the dropped abc lists
    groups of nine, the abc lists groups of six, the ab and dropped ab lists
    groups of five. *)
Theorem trier_records_whole_groups (G : Grid.Lists) (hist : list Q) :
  exists r, Scanner.Cartesian_Trier G hist = Some r /\ Invariants.whole_groups (Scanner.samples r).
Proof.
  eexists. split; [apply Cartesian_Trier_windows|].
  apply (trier_keeps G hist Invariants.whole_groups).
  - unfold Invariants.whole_groups. cbn. repeat split; apply Nat.divide_0_r.
  - intros a b c d ax axx ac bx bxx cd s _ _ _ _ _ _ _ _ _ _ Hs.
    unfold Invariants.whole_groups in *. cbn.
    destruct Hs as (H1 & H2 & H3 & H4 & H5 & H6 & H7 & H8 & H9 & H10).
    repeat split; apply extend_if_divide; auto.
  - apply Cartesian_Trier_windows.
Qed.

(** ** The ab tests run once per value of the loop variables they ignore *)

Section Repeats.
(** One of the four lists of groups of five, with its test, which reads
    [ax] and [cd] only. *)
Variable list_of : Scanner.Samples -> list Q.
Variable test : Q -> Q -> Q -> Q -> Q -> bool.
Hypothesis list_of_no_samples : list_of Scanner.no_samples = [].
Hypothesis tries_list_of :
  forall a b c d ax axx ac bx bxx cd s,
    list_of (Scanner.tries a b c d ax axx ac bx bxx cd s)
    = Scanner.extend_if (test a b c ax cd) (list_of s) [a; 1 + ax; b; c; 1 + cd]%Q.

Variable G : Grid.Lists.

Lemma cd_loop_adds (a b c d ax axx ac bx bxx : Q) (cds : list Q) (s : Scanner.Samples) :
  length (list_of (for_each cds (fun cd => Scanner.tries a b c d ax axx ac bx bxx cd) s))
  = length (list_of s) + 5 * length (filter (test a b c ax) cds).
Proof.
  revert s. induction cds as [|cd cds IH]; intros s; [cbn; lia|].
  rewrite for_each_cons, IH, tries_list_of. unfold Scanner.extend_if. cbn [filter].
  destruct (test a b c ax cd); rewrite ?length_app; cbn [length]; lia.
Qed.

Lemma constant_loop_adds {A : Type} (l : list A)
    (body : A -> Scanner.Samples -> Scanner.Samples) (amount : nat) (s : Scanner.Samples) :
  (forall x s', length (list_of (body x s')) = length (list_of s') + amount) ->
  length (list_of (for_each l body s)) = length (list_of s) + length l * amount.
Proof.
  intros Hbody. revert s. induction l as [|x l IH]; intros s; [cbn; lia|].
  rewrite for_each_cons, IH, Hbody. cbn [length]. lia.
Qed.

Lemma window_adds_repeats (a b c d : Q) (s : Scanner.Samples) :
  Nat.divide (5 * Invariants.ab_repeats G) (length (list_of s)) ->
  Nat.divide (5 * Invariants.ab_repeats G)
             (length (list_of (Scanner.combinations G a b c d s))).
Proof.
  unfold Scanner.combinations.
  apply (for_each_keeps
           (fun s' => Nat.divide (5 * Invariants.ab_repeats G) (length (list_of s')))).
  intros ax s1 _ Hs1.
  rewrite (constant_loop_adds (Grid.axxlist G) _
             (length (Grid.aclist G) * (length (Grid.bxlist G)
                * (length (Grid.bxxlist G)
                   * (5 * length (filter (test a b c ax) (Grid.cdlist G))))))).
  - apply Nat.divide_add_r; [exact Hs1|].
    exists (length (filter (test a b c ax) (Grid.cdlist G))).
    unfold Invariants.ab_repeats. nia.
  - intros axx s2. apply constant_loop_adds.
    intros ac s3. apply constant_loop_adds.
    intros bx s4. apply constant_loop_adds.
    intros bxx s5. apply cd_loop_adds.
Qed.

Lemma run_adds_repeats (hist : list Q) (r : Scanner.Run) :
  Scanner.Cartesian_Trier G hist = Some r ->
  Nat.divide (5 * Invariants.ab_repeats G) (length (list_of (Scanner.samples r))).
Proof.
  intros Hrun. rewrite Cartesian_Trier_windows in Hrun.
  injection Hrun as <-. cbn [Scanner.samples].
  apply (for_each_keeps
           (fun s' => Nat.divide (5 * Invariants.ab_repeats G) (length (list_of s')))).
  - intros i s _ Hs. unfold Scanner.window_body. apply window_adds_repeats. exact Hs.
  - rewrite list_of_no_samples. exists 0. reflexivity.
Qed.
End Repeats.

(** The tests of the four ab lists read [a], [b], [c], [ax] and [cd] only,
    but sit inside the loops over [axxlist], [aclist], [bxlist] and
    [bxxlist]: every sample is appended once per combination of those four,
    so the number of groups of five in each of the four lists is a multiple
    of [len(axxlist) * len(aclist) * len(bxlist) * len(bxxlist)]. *)
Theorem ab_samples_are_repeated (G : Grid.Lists) (hist : list Q) :
  exists r,
    Scanner.Cartesian_Trier G hist = Some r
    /\ Nat.divide (5 * Invariants.ab_repeats G)
                  (length (Scanner.wins_risinglows_ab (Scanner.samples r)))
    /\ Nat.divide (5 * Invariants.ab_repeats G)
                  (length (Scanner.losses_risinglows_ab (Scanner.samples r)))
    /\ Nat.divide (5 * Invariants.ab_repeats G)
                  (length (Scanner.dropped_wins_risinglows_ab (Scanner.samples r)))
    /\ Nat.divide (5 * Invariants.ab_repeats G)
                  (length (Scanner.dropped_losses_risinglows_ab (Scanner.samples r))).
Proof.
  eexists. split; [apply Cartesian_Trier_windows|].
  split; [|split; [|split]].
  - apply (run_adds_repeats Scanner.wins_risinglows_ab Scanner.ab_win) with (hist := hist);
      [reflexivity | reflexivity | apply Cartesian_Trier_windows].
  - apply (run_adds_repeats Scanner.losses_risinglows_ab Scanner.ab_loss) with (hist := hist);
      [reflexivity | reflexivity | apply Cartesian_Trier_windows].
  - apply (run_adds_repeats Scanner.dropped_wins_risinglows_ab Scanner.dropped_ab_win)
      with (hist := hist);
      [reflexivity | reflexivity | apply Cartesian_Trier_windows].
  - apply (run_adds_repeats Scanner.dropped_losses_risinglows_ab Scanner.dropped_ab_loss)
      with (hist := hist);
      [reflexivity | reflexivity | apply Cartesian_Trier_windows].
Qed.

(** ** wins_count_lister *)

Lemma int_at_least (n : Z) (q : Q) :
  (0 <= n)%Z -> (inject_Z n <= q)%Q -> (n <= Lister.int q)%Z.
Proof.
  destruct q as [a b]. unfold Qle, Lister.int. cbn. intros Hn Hq.
  rewrite Z.quot_div_nonneg by nia.
  apply Z.div_le_lower_bound; nia.
Qed.

Lemma int_below (n : Z) (q : Q) :
  (0 <= q)%Q -> (q < inject_Z n)%Q -> (Lister.int q < n)%Z.
Proof.
  destruct q as [a b]. unfold Qle, Qlt, Lister.int. cbn. intros Hq Hn.
  rewrite Z.quot_div_nonneg by nia.
  apply Z.div_lt_upper_bound; nia.
Qed.

Lemma lister_step_skips (n : nat) (v : Q) (model : list (list nat)) :
  0 < n -> Lister.int v <> 0%Z -> Lister.int v <> Z.of_nat n ->
  Lister.lister_step n v model = model.
Proof.
  intros Hn H0 Hv. unfold Lister.lister_step. cbn [Nat.add].
  apply Z.eqb_neq in H0, Hv. rewrite H0, Hv.
  destruct (Nat.eqb_spec 0 n); [lia | reflexivity].
Qed.

Lemma price_or_multiplier_int (v : Q) :
  Invariants.price_or_multiplier v -> Lister.int v <> 0%Z /\ Lister.int v <> 10%Z.
Proof.
  intros [Hprice | [Hlo Hhi]].
  - pose proof (int_at_least 11 v ltac:(lia) Hprice). lia.
  - pose proof (int_at_least 1 v ltac:(lia) Hlo).
    assert (H0 : (0 <= v)%Q) by lra.
    pose proof (int_below 2 v H0 Hhi). lia.
Qed.

Lemma lister_loop_skips (n : nat) (values : list Q) :
  0 < n ->
  Forall (fun v => Lister.int v <> 0%Z /\ Lister.int v <> Z.of_nat n) values ->
  Lister.lister_loop n values = [].
Proof.
  intros Hn Hvalues. unfold Lister.lister_loop.
  apply (for_each_keeps (fun model => model = [])); [|reflexivity].
  intros v model Hv ->. rewrite Forall_forall in Hvalues.
  destruct (Hvalues v Hv). now apply lister_step_skips.
Qed.

(** Whatever list it walks, a loop of the lister appends only the places
    of the first two groups: every entry is a one-element list [[k]] with
    [k < 2 * n].  The places of a third or later group are never produced. *)
Theorem lister_places_stay_in_two_groups (n : nat) (values : list Q) (p : list nat) :
  In p (Lister.lister_loop n values) -> exists k, p = [k] /\ k < 2 * n.
Proof.
  unfold Lister.lister_loop.
  enough (Hall : Forall (fun p => exists k, p = [k] /\ k < 2 * n)
                        (for_each values (Lister.lister_step n) [])).
  { rewrite Forall_forall in Hall. apply Hall. }
  apply (for_each_keeps (Forall (fun p => exists k, p = [k] /\ k < 2 * n)));
    [|constructor].
  intros v model _ Hmodel.
  assert (Hplaces : forall from, from + n <= 2 * n ->
            Forall (fun p => exists k, p = [k] /\ k < 2 * n) (Lister.places from n)).
  { intros from Hfrom. unfold Lister.places. apply Forall_forall. intros q Hq.
    apply in_map_iff in Hq. destruct Hq as (k & <- & Hk). apply in_seq in Hk.
    exists k. split; [reflexivity | lia]. }
  unfold Lister.lister_step.
  destruct (Lister.int v =? 0)%Z; destruct (Lister.int v =? Z.of_nat (0 + n))%Z;
    destruct (0 + n =? n)%nat; destruct (0 =? n)%nat;
    repeat (apply Forall_app; split); auto; apply Hplaces; lia.
Qed.

Lemma lister_places_stay_in_two_groups_witness :
  exists k, [12] = [k] /\ k < 2 * 10.
Proof.
  apply (lister_places_stay_in_two_groups 10 [(3 # 10); (21 # 2)]%Q [12]).
  vm_compute. do 12 right. left. reflexivity.
Defined.

(** The lister after the trier.  The abcd win list holds prices and
    multipliers [1 + m]; with every price of the history at least 11 and
    every increment a fraction, no recorded value has integer part 0 or
    10, so the loop over [wins_risinglows_abcd] appends nothing; the other
    four loops walk lists that are empty.  All five models stay empty. *)
Theorem lister_after_trier_is_empty (G : Grid.Lists) (hist : list Q) :
  Invariants.fractions G ->
  (forall p, In p hist -> (11 <= p)%Q) ->
  exists r,
    Scanner.Cartesian_Trier G hist = Some r
    /\ Lister.wins_count_lister_after (Scanner.samples r)
       = Lister.mkModels [] [] [] [] [].
Proof.
  intros Hgrid Hhist. eexists. split; [apply Cartesian_Trier_windows|].
  unfold Lister.wins_count_lister_after, Lister.wins_count_lister.
  f_equal. apply lister_loop_skips; [lia|].
  apply Forall_impl with (P := Invariants.price_or_multiplier).
  { intros v Hv. now apply price_or_multiplier_int. }
  apply (trier_keeps G hist
           (fun s => Forall Invariants.price_or_multiplier (Scanner.wins_risinglows_abcd s)));
    [constructor | | apply Cartesian_Trier_windows].
  intros a b c d ax axx ac bx bxx cd s Ha Hb Hc Hd Hax Haxx Hac Hbx Hbxx Hcd Hs.
  cbn [Scanner.tries Scanner.wins_risinglows_abcd]. unfold Scanner.extend_if.
  destruct (Scanner.abcd_win a b c d ax axx ac bx bxx cd); [|exact Hs].
  apply Forall_app. split; [exact Hs|].
  assert (Hm : forall m, In m (Grid.axlist G) \/ In m (Grid.axxlist G)
                         \/ In m (Grid.aclist G) \/ In m (Grid.bxlist G)
                         \/ In m (Grid.bxxlist G) \/ In m (Grid.cdlist G) ->
                         Invariants.price_or_multiplier (1 + m)%Q).
  { intros m Hin. right. destruct (Hgrid m) as [Hlo Hhi]; [|split; lra].
    rewrite !in_app_iff. tauto. }
  repeat (apply Forall_cons; [first [ left; now apply Hhist | apply Hm; tauto ]|]).
  apply Forall_nil.
Qed.

Lemma lister_after_trier_is_empty_witness :
  exists r,
    Scanner.Cartesian_Trier Inputs.short_grid [100; 101; 102; 103; 104]%Q = Some r
    /\ Lister.wins_count_lister_after (Scanner.samples r)
       = Lister.mkModels [] [] [] [] [].
Proof.
  apply lister_after_trier_is_empty.
  - intros m Hm. cbn in Hm.
    repeat (destruct Hm as [<- | Hm]; [split; [vm_compute; discriminate | vm_compute; reflexivity]|]).
    destruct Hm.
  - intros p Hp. cbn in Hp.
    repeat (destruct Hp as [<- | Hp]; [vm_compute; discriminate|]).
    destruct Hp.
Defined.

(** * Further properties of the trading code *)

(** ** One order per call *)

Lemma no_change_is_no_gain (p : Q) : ~ (p == 0)%Q -> ((p - p) / p == 0)%Q.
Proof. intros Hp. field. exact Hp. Qed.

Ltac no_order := exists []; rewrite app_nil_r; split; [reflexivity | cbn; lia].

Lemma strategy_sells_one_order (ex : Live.Exchange) (st : Live.State) :
  exists l,
    Live.orders (Live.final (Live.strategy_sells ex st)) = Live.orders st ++ l
    /\ length l <= 1.
Proof.
  unfold Live.strategy_sells, Live.If, Live.held_c, Live.pure.
  destruct (Live.held st); [|no_order].
  destruct (Live.bought_price (Live.position st)) as [bought|];
    [|no_order].
  destruct (Qeq_bool bought 0); [no_order|]. cbv zeta.
  unfold Live.seq_then, Live.market_sell_amount_held, Live.limit_sell_amount_held,
    Live.coinbase_market_sell, Live.coinbase_limit_sell, Live.bind, Live.If, Live.pure.
  destruct (_ && _); [|destruct (120 <=? _)%Z; [|destruct (_ <=?q _)]];
    try (no_order);
    (destruct (Live.btc_amount_held (Live.position st));
       [|no_order]);
    [destruct (Live.limit_sell_result ex) | destruct (Live.market_sell_result ex)
     | destruct (Live.market_sell_result ex)];
    cbn; eexists; split; try reflexivity; cbn; lia.
Qed.

Lemma strategy_sells_flat (ex : Live.Exchange) (st : Live.State) :
  Live.held st = false -> Live.strategy_sells ex st = Live.Ok st.
Proof.
  intros Hheld. unfold Live.strategy_sells. apply If_false.
  unfold Live.held_c, Live.pure. now rewrite Hheld.
Qed.

(** The sell part in terms of its three tests. *)
Lemma strategy_sells_no_branch (ex : Live.Exchange) (st : Live.State) (bought : Q) :
  Live.held st = true ->
  Live.bought_price (Live.position st) = Some bought ->
  Qeq_bool bought 0 = false ->
  ((Live.price st - bought) / bought >=?q 5 # 1000)
  && (60 <=? Live.current_time (Live.clock st) - Live.bought_time (Live.position st))%Z = false ->
  (120 <=? Live.current_time (Live.clock st) - Live.bought_time (Live.position st))%Z = false ->
  ((Live.price st - bought) / bought <=?q - (2 # 100)) = false ->
  Live.strategy_sells ex st = Live.Ok st.
Proof.
  intros Hheld Hbought Hzero Htarget Hlimit Hstop.
  unfold Live.strategy_sells.
  rewrite If_true by (unfold Live.held_c, Live.pure; now rewrite Hheld).
  rewrite Hbought, Hzero. cbv zeta. now rewrite Htarget, Hlimit, Hstop.
Qed.

Lemma strategy_buy_result (ex : Live.Exchange) (st : Live.State) :
  Live.strategy_buy ex st
  = let st1 := Live.place (Live.MarketBuy (Live.calculate_trade_amount ex))
                 (Live.set_trade_amount_usd (Live.calculate_trade_amount ex) st) in
    if Live.market_buy_result ex then
      let st2 := Live.set_bought_price (Some (Live.price st))
                   (Live.set_bought_time (Live.current_time (Live.clock st))
                      (Live.set_position_held true st1)) in
      if Qeq_bool (Live.price st) 0 then Live.Raised st2
      else Live.Ok (Live.set_btc_amount_held
                      (Some (Live.calculate_trade_amount ex / Live.price st)%Q) st2)
    else Live.Ok st1.
Proof.
  unfold Live.strategy_buy, Live.seq_then, Live.assign, Live.bind, Live.If, Live.pure.
  destruct (Live.market_buy_result ex); reflexivity.
Qed.

(** After the buy of a strategy function the sell part of the same call
    sees a position bought zero seconds ago at the current price, and
    places nothing. *)
Lemma strategy_buy_then_sells (ex : Live.Exchange) (st : Live.State) :
  Live.held st = false ->
  Live.orders (Live.final (Live.bind (Live.strategy_buy ex st) (Live.strategy_sells ex)))
  = Live.orders st ++ [Live.MarketBuy (Live.calculate_trade_amount ex)].
Proof.
  intros Hheld. rewrite strategy_buy_result. cbv zeta.
  destruct (Live.market_buy_result ex).
  - destruct (Qeq_bool (Live.price st) 0) eqn:Hzero; [reflexivity|].
    cbn [Live.bind].
    assert (Hp : ~ (Live.price st == 0)%Q).
    { intros Heq. apply Qeq_bool_iff in Heq. congruence. }
    pose proof (no_change_is_no_gain _ Hp) as Hflat.
    rewrite (strategy_sells_no_branch ex _ (Live.price st)); try reflexivity.
    + exact Hzero.
    + apply andb_false_iff. left. apply ge_false_iff.
      change (((Live.price st - Live.price st) / Live.price st < 5 # 1000)%Q).
      rewrite Hflat. reflexivity.
    + change ((120 <=? Live.current_time (Live.clock st)
                       - Live.current_time (Live.clock st))%Z = false).
      now rewrite Z.sub_diag.
    + apply le_false_iff.
      change ((- (2 # 100) < (Live.price st - Live.price st) / Live.price st)%Q).
      rewrite Hflat. reflexivity.
  - cbn [Live.bind]. rewrite strategy_sells_flat by exact Hheld. reflexivity.
Qed.

Lemma hourly_buy_cases (ex : Live.Exchange) (st : Live.State) :
  Live.hourly_buy ex st = Live.Ok st \/ Live.hourly_buy ex st = Live.Raised st
  \/ (Live.held st = false /\ Live.hourly_buy ex st = Live.strategy_buy ex st).
Proof.
  unfold Live.hourly_buy.
  destruct (3 <=? _); [|now left].
  destruct (Live.mark_price _ _) as [p5|]; [|now right; left].
  destruct (Live.mark_price _ _) as [p65|]; [|now right; left].
  destruct (Live.mark_price _ _) as [p125|]; [|now right; left].
  destruct (_ && _); [|now left].
  unfold Live.If, Live.pure.
  destruct (Live.held st) eqn:Hheld; [rewrite andb_false_r; now left|].
  destruct (is_True _); [|now left]. cbn [andb negb].
  destruct (Live.and_then _ _ st) as [[|]|]; auto.
Qed.

Lemma minutely_buy_cases (ex : Live.Exchange) (st : Live.State) :
  Live.minutely_buy ex st = Live.Ok st
  \/ (Live.held st = false /\ Live.minutely_buy ex st = Live.strategy_buy ex st).
Proof.
  unfold Live.minutely_buy.
  destruct (Live.price_1_minute_ago (Live.past st)) as [ago|]; [|now left].
  unfold Live.If, Live.pure.
  destruct (Live.held st) eqn:Hheld; [rewrite andb_false_r; now left|].
  destruct (is_True _); [|now left]. cbn [andb negb].
  destruct (_ >?q _); auto.
Qed.

Lemma execute_hourly_strategy_one_order (ex : Live.Exchange) (st : Live.State) :
  exists l,
    Live.orders (Live.final (Live.execute_hourly_strategy ex st)) = Live.orders st ++ l
    /\ length l <= 1.
Proof.
  unfold Live.execute_hourly_strategy, Live.seq_then.
  destruct (hourly_buy_cases ex st) as [-> | [-> | [Hheld ->]]].
  - apply strategy_sells_one_order.
  - no_order.
  - rewrite (strategy_buy_then_sells ex st Hheld). eexists. split; [reflexivity|cbn; lia].
Qed.

Lemma execute_minutely_strategy_one_order (ex : Live.Exchange) (st : Live.State) :
  exists l,
    Live.orders (Live.final (Live.execute_minutely_strategy ex st)) = Live.orders st ++ l
    /\ length l <= 1.
Proof.
  unfold Live.execute_minutely_strategy, Live.seq_then.
  destruct (minutely_buy_cases ex st) as [-> | [Hheld ->]].
  - apply strategy_sells_one_order.
  - rewrite (strategy_buy_then_sells ex st Hheld). eexists. split; [reflexivity|cbn; lia].
Qed.

(** One call of [execute_hourly_strategy] or of [execute_minutely_strategy]
    places at most one order, whatever the globals and the exchange's
    answers: after a buy the sell part of the same call finds zero seconds
    elapsed and zero price change, and places nothing. *)
Theorem strategy_call_places_at_most_one_order (ex : Live.Exchange) (st : Live.State) :
  (exists l,
     Live.orders (Live.final (Live.execute_hourly_strategy ex st)) = Live.orders st ++ l
     /\ length l <= 1)
  /\ (exists l,
        Live.orders (Live.final (Live.execute_minutely_strategy ex st)) = Live.orders st ++ l
        /\ length l <= 1).
Proof.
  split; [apply execute_hourly_strategy_one_order | apply execute_minutely_strategy_one_order].
Qed.

Section Loop.
Variable update_time_marks : Live.Exchange -> Live.State -> Live.Marks.

Lemma cycle_one_order (ex : Live.Exchange) (st : Live.State) :
  exists l,
    Live.orders (Live.cycle update_time_marks ex st) = Live.orders st ++ l
    /\ length l <= 1.
Proof.
  unfold Live.cycle, Live.execute_bot_cycle, Live.seq_then, Live.assign, Live.bind.
  set (st2 := Live.set_marks _ (Live.set_clock _ st)).
  change (Live.orders st) with (Live.orders st2).
  destruct (log_position_cases st2) as [-> | ->]; [|no_order].
  destruct (is_True (Live.hourly_bot (Live.switches st2)));
    [apply execute_hourly_strategy_one_order|].
  destruct (is_True (Live.minutely_bot (Live.switches st2)));
    [apply execute_minutely_strategy_one_order | no_order].
Qed.

(** The main loop keeps every order already placed and adds at most one
    order per cycle: after [n] cycles the log of orders is the old log
    followed by at most [n] orders. *)
Theorem main_loop_adds_at_most_one_order_per_cycle
    (answers : list Live.Exchange) (st : Live.State) :
  exists l,
    Live.orders (Live.main_loop update_time_marks answers st) = Live.orders st ++ l
    /\ length l <= length answers.
Proof.
  revert st. induction answers as [|ex answers IH]; intros st; [no_order|].
  change (Live.main_loop update_time_marks (ex :: answers) st)
    with (Live.main_loop update_time_marks answers (Live.cycle update_time_marks ex st)).
  destruct (IH (Live.cycle update_time_marks ex st)) as (l2 & -> & Hl2).
  destruct (cycle_one_order ex st) as (l1 & -> & Hl1).
  exists (l1 ++ l2). rewrite app_assoc, length_app. split; [reflexivity | cbn; lia].
Qed.
End Loop.

(** ** The timed ladders of the abc, ab and aandupspike sections *)











(** ** The ladder of the abcd section *)






(** ** The sell part of the strategy functions *)

Lemma gain_below (price bought k : Q) :
  (0 < bought)%Q -> (price < (1 + k) * bought)%Q -> ((price - bought) / bought < k)%Q.
Proof. intros Hpos Hlt. apply Qlt_shift_div_r; [assumption|lra]. Qed.

Lemma gain_above (price bought k : Q) :
  (0 < bought)%Q -> ((1 + k) * bought < price)%Q -> (k < (price - bought) / bought)%Q.
Proof. intros Hpos Hlt. apply Qlt_shift_div_l; [assumption|lra]. Qed.

Lemma gain_at_least (price bought k : Q) :
  (0 < bought)%Q -> ((1 + k) * bought <= price)%Q -> (k <= (price - bought) / bought)%Q.
Proof. intros Hpos Hle. apply Qle_shift_div_l; [assumption|lra]. Qed.

Lemma positive_is_not_zero (q : Q) : (0 < q)%Q -> Qeq_bool q 0 = false.
Proof.
  intros Hpos. destruct (Qeq_bool q 0) eqn:Hzero; [|reflexivity].
  apply Qeq_bool_eq in Hzero. lra.
Qed.

(** With a position held, bought at a positive price, the sell part of
    the strategy functions leaves everything as it is while fewer than 120
    seconds have passed, the price is above 98 percent of the bought price
    and either fewer than 60 seconds have passed or the price is below
    1.005 times the bought price.  In the first minute no gain, however
    large, is taken. *)
Theorem strategy_sells_holds (ex : Live.Exchange) (st : Live.State) (bought : Q) :
  Live.held st = true ->
  Live.bought_price (Live.position st) = Some bought ->
  (0 < bought)%Q ->
  (Live.current_time (Live.clock st) - Live.bought_time (Live.position st) < 120)%Z ->
  ((98 # 100) * bought < Live.price st)%Q ->
  (Live.current_time (Live.clock st) - Live.bought_time (Live.position st) < 60)%Z
  \/ (Live.price st < (1005 # 1000) * bought)%Q ->
  Live.strategy_sells ex st = Live.Ok st.
Proof.
  intros Hheld Hbought Hpos Hlimit Hstop Htarget.
  apply (strategy_sells_no_branch ex st bought Hheld Hbought).
  - now apply positive_is_not_zero.
  - apply andb_false_iff. destruct Htarget as [Hearly | Hsmall].
    + right. apply Z.leb_gt. exact Hearly.
    + left. apply ge_false_iff. apply gain_below; [assumption|lra].
  - apply Z.leb_gt. exact Hlimit.
  - apply le_false_iff. apply (gain_above _ _ (- (2 # 100))); [assumption|lra].
Qed.

Lemma strategy_sells_holds_witness :
  Live.strategy_sells Inputs.exchange MoreInputs.early_gain = Live.Ok MoreInputs.early_gain.
Proof.
  apply (strategy_sells_holds Inputs.exchange MoreInputs.early_gain 100).
  - reflexivity.
  - reflexivity.
  - reflexivity.
  - vm_compute. reflexivity.
  - vm_compute. reflexivity.
  - left. vm_compute. reflexivity.
Defined.

(** With a position held for at least 60 seconds, bought at a positive
    price, and the price at least 1.005 times the bought price, the sell
    part places exactly one order, a limit sell of [btc_amount_held] at
    1.01 times the current price, also after 120 seconds; when the call
    returns a result the position is marked closed at once, with the
    current price as the sold price. *)
Theorem strategy_sells_takes_profit (ex : Live.Exchange) (st : Live.State) (bought size : Q) :
  Live.held st = true ->
  Live.bought_price (Live.position st) = Some bought ->
  (0 < bought)%Q ->
  Live.btc_amount_held (Live.position st) = Some size ->
  (60 <= Live.current_time (Live.clock st) - Live.bought_time (Live.position st))%Z ->
  ((1005 # 1000) * bought <= Live.price st)%Q ->
  Live.orders (Live.final (Live.strategy_sells ex st))
  = Live.orders st ++ [Live.LimitSell size (Live.price st * (101 # 100))]
  /\ Live.held (Live.final (Live.strategy_sells ex st)) = negb (Live.limit_sell_result ex)
  /\ (Live.limit_sell_result ex = true ->
      Live.sold_price (Live.position (Live.final (Live.strategy_sells ex st)))
      = Some (Live.price st)).
Proof.
  intros Hheld Hbought Hpos Hsize Htime Hgain.
  unfold Live.strategy_sells.
  rewrite If_true by (unfold Live.held_c, Live.pure; now rewrite Hheld).
  rewrite Hbought, (positive_is_not_zero bought Hpos). cbv zeta.
  replace ((Live.price st - bought) / bought >=?q 5 # 1000) with true
    by (symmetry; apply ge_iff; apply gain_at_least; [assumption|lra]).
  apply Z.leb_le in Htime. rewrite Htime. cbn [andb].
  unfold Live.seq_then, Live.limit_sell_amount_held. rewrite Hsize.
  unfold Live.coinbase_limit_sell, Live.bind, Live.If, Live.pure.
  unfold Live.held in *.
  destruct (Live.limit_sell_result ex); cbn; repeat split; auto; discriminate.
Qed.

Lemma strategy_sells_takes_profit_witness :
  Live.orders (Live.final (Live.strategy_sells Inputs.exchange MoreInputs.target_reached))
  = [Live.LimitSell (1 # 2) ((1005 # 10) * (101 # 100))%Q].
Proof.
  apply (strategy_sells_takes_profit Inputs.exchange MoreInputs.target_reached 100 (1 # 2)).
  - reflexivity.
  - reflexivity.
  - reflexivity.
  - reflexivity.
  - vm_compute. discriminate.
  - vm_compute. discriminate.
Defined.

(** From 120 seconds after the buy on, with the price below 1.005 times
    the (positive) bought price, the sell part places exactly one order, a
    market sell of [btc_amount_held], whatever the price; the position is
    marked closed when the call returns a result and stays held when it
    does not. *)
Theorem strategy_sells_time_limit (ex : Live.Exchange) (st : Live.State) (bought size : Q) :
  Live.held st = true ->
  Live.bought_price (Live.position st) = Some bought ->
  (0 < bought)%Q ->
  Live.btc_amount_held (Live.position st) = Some size ->
  (120 <= Live.current_time (Live.clock st) - Live.bought_time (Live.position st))%Z ->
  (Live.price st < (1005 # 1000) * bought)%Q ->
  Live.orders (Live.final (Live.strategy_sells ex st))
  = Live.orders st ++ [Live.MarketSell size]
  /\ Live.held (Live.final (Live.strategy_sells ex st)) = negb (Live.market_sell_result ex).
Proof.
  intros Hheld Hbought Hpos Hsize Htime Hgain.
  unfold Live.strategy_sells.
  rewrite If_true by (unfold Live.held_c, Live.pure; now rewrite Hheld).
  rewrite Hbought, (positive_is_not_zero bought Hpos). cbv zeta.
  replace ((Live.price st - bought) / bought >=?q 5 # 1000) with false
    by (symmetry; apply ge_false_iff; apply gain_below; [assumption|lra]).
  apply Z.leb_le in Htime. rewrite Htime. cbn [andb].
  unfold Live.seq_then, Live.market_sell_amount_held. rewrite Hsize.
  unfold Live.coinbase_market_sell, Live.bind, Live.If, Live.pure.
  unfold Live.held in *.
  destruct (Live.market_sell_result ex); cbn; auto.
Qed.

Lemma strategy_sells_time_limit_witness :
  Live.orders (Live.final (Live.strategy_sells Inputs.exchange MoreInputs.time_up))
  = [Live.MarketSell (1 # 2)]
  /\ Live.held (Live.final (Live.strategy_sells Inputs.exchange MoreInputs.time_up))
     = negb (Live.market_sell_result Inputs.exchange).
Proof.
  apply (strategy_sells_time_limit Inputs.exchange MoreInputs.time_up 100 (1 # 2)).
  - reflexivity.
  - reflexivity.
  - reflexivity.
  - reflexivity.
  - vm_compute. discriminate.
  - vm_compute. reflexivity.
Defined.

(** When the exchange refuses the sell (the helper returns [None]) the
    sell part changes nothing of the position: it is still held, with the
    same bought time and price, and the order is placed again by the next
    call. *)
Theorem strategy_sells_refused_keeps_position (ex : Live.Exchange) (st : Live.State) :
  Live.market_sell_result ex = false ->
  Live.limit_sell_result ex = false ->
  Live.position (Live.final (Live.strategy_sells ex st)) = Live.position st.
Proof.
  intros Hmarket Hlimit.
  unfold Live.strategy_sells, Live.If, Live.held_c, Live.pure.
  destruct (Live.held st); [|reflexivity].
  destruct (Live.bought_price (Live.position st)) as [bought|]; [|reflexivity].
  destruct (Qeq_bool bought 0); [reflexivity|]. cbv zeta.
  unfold Live.seq_then, Live.market_sell_amount_held, Live.limit_sell_amount_held,
    Live.coinbase_market_sell, Live.coinbase_limit_sell, Live.bind, Live.If, Live.pure.
  rewrite Hmarket, Hlimit.
  destruct (_ && _); [|destruct (120 <=? _)%Z; [|destruct (_ <=?q _)]];
    try reflexivity;
    (destruct (Live.btc_amount_held (Live.position st)); reflexivity).
Qed.

Lemma strategy_sells_refused_keeps_position_witness :
  Live.position (Live.final (Live.strategy_sells MoreInputs.failing_exchange MoreInputs.time_up))
  = Live.position MoreInputs.time_up.
Proof.
  apply (strategy_sells_refused_keeps_position MoreInputs.failing_exchange MoreInputs.time_up);
    reflexivity.
Defined.

(** ** A position with no usable bought price *)

Section Wedged.
Variable update_time_marks : Live.Exchange -> Live.State -> Live.Marks.

Lemma log_position_wedged (st : Live.State) :
  Invariants.wedged st -> Live.log_position st = Live.Raised st.
Proof.
  intros [Hheld Hbought]. unfold Live.log_position.
  rewrite If_true by (unfold Live.held_c, Live.pure; now rewrite Hheld).
  destruct (Live.bought_price (Live.position st)) as [bought|]; [|reflexivity].
  now rewrite Hbought.
Qed.

Lemma cycle_wedged (ex : Live.Exchange) (st : Live.State) :
  Invariants.wedged st ->
  Live.orders (Live.cycle update_time_marks ex st) = Live.orders st
  /\ Live.position (Live.cycle update_time_marks ex st) = Live.position st.
Proof.
  intros Hwedged.
  unfold Live.cycle, Live.execute_bot_cycle, Live.seq_then, Live.assign, Live.bind.
  set (st2 := Live.set_marks _ (Live.set_clock _ st)).
  rewrite (log_position_wedged st2 Hwedged). now split.
Qed.

(** A position marked held whose bought price is [None] or zero is never
    sold by the main loop: every cycle raises at the profit-and-loss log
    line, before a strategy function runs, so no order is placed and the
    position record stays as it is, for any number of cycles and any
    answers of the exchange. *)
Theorem wedged_position_is_never_sold (answers : list Live.Exchange) (st : Live.State) :
  Invariants.wedged st ->
  Live.orders (Live.main_loop update_time_marks answers st) = Live.orders st
  /\ Live.position (Live.main_loop update_time_marks answers st) = Live.position st.
Proof.
  revert st. induction answers as [|ex answers IH]; intros st Hwedged; [now split|].
  change (Live.main_loop update_time_marks (ex :: answers) st)
    with (Live.main_loop update_time_marks answers (Live.cycle update_time_marks ex st)).
  destruct (cycle_wedged ex st Hwedged) as [Horders Hposition].
  destruct (IH (Live.cycle update_time_marks ex st)) as [IHorders IHposition].
  - unfold Invariants.wedged, Live.held in *. now rewrite Hposition.
  - split; congruence.
Qed.
End Wedged.

Lemma wedged_position_is_never_sold_witness :
  Live.orders (Live.main_loop (fun _ st => Live.marks st)
                 [Inputs.exchange; Inputs.exchange; Inputs.exchange] MoreInputs.bought_at_zero)
  = []
  /\ Live.position (Live.main_loop (fun _ st => Live.marks st)
                      [Inputs.exchange; Inputs.exchange; Inputs.exchange]
                      MoreInputs.bought_at_zero)
     = Live.position MoreInputs.bought_at_zero.
Proof.
  apply (wedged_position_is_never_sold (fun _ st => Live.marks st)).
  split; reflexivity.
Defined.

(** A buy of a strategy function at a spot price of zero, answered by the
    exchange, leaves such a position: [position_held] and [bought_price]
    are assigned before the division by the bought price raises. *)
Lemma buy_at_price_zero_wedges (ex : Live.Exchange) (st : Live.State) :
  Live.market_buy_result ex = true ->
  Qeq_bool (Live.price st) 0 = true ->
  Invariants.wedged (Live.final (Live.strategy_buy ex st)).
Proof.
  intros Hbuy Hzero. rewrite strategy_buy_result. cbv zeta.
  rewrite Hbuy, Hzero. split; [reflexivity | exact Hzero].
Qed.

Lemma buy_at_price_zero_wedges_witness :
  Invariants.wedged
    (Live.final (Live.strategy_buy Inputs.exchange
                   (Live.set_clock (Live.mkClock 1060 1060 1060 0 0) Inputs.abc_ab_enabled_flat))).
Proof.
  apply buy_at_price_zero_wedges; reflexivity.
Defined.

(** ** The win-rate trackers and the slippage detector as the script runs them *)

(** A tracker never switches its model off and never sells: the two
    history lists it judges are created empty right before the recording,
    so they hold at most one entry and the test [total >= 20] fails. *)
Theorem tracker_never_deactivates (p : Live.Pattern) (ex : Live.Exchange) (st : Live.State) :
  exists st',
    Live.win_loss_math p ex st = Live.Ok st'
    /\ Live.total_win_loss p st' <= 1
    /\ Live.switches st' = Live.switches st
    /\ Live.position st' = Live.position st
    /\ Live.orders st' = Live.orders st.
Proof.
  destruct (win_loss_math_effect p ex st)
    as (st' & Hrun & Hwins & Hlosses & _ & Hswitches & Hposition & Horders).
  exists st'. repeat split; try assumption.
  unfold Live.total_win_loss. rewrite Hwins, Hlosses. apply win_or_loss_not_both.
Qed.

(** * Time marks and price files *)

(** ** update_time_marks *)

Lemma keep_sixth_length {V : Type} (lst : list V) : length (TimeMarks.keep_sixth lst) <= 5.
Proof.
  unfold TimeMarks.keep_sixth.
  destruct (Nat.ltb_spec 5 (length lst)) as [Hlong | Hshort]; [|exact Hshort].
  destruct (nth_error lst 5) eqn:Hsixth; [cbn; lia|].
  apply nth_error_None in Hsixth. lia.
Qed.

Lemma keep_sixth_in_step {V W : Type} (l1 : list V) (l2 : list W) :
  length l1 = length l2 ->
  length (TimeMarks.keep_sixth l1) = length (TimeMarks.keep_sixth l2).
Proof.
  intros Hsame. unfold TimeMarks.keep_sixth. rewrite <- Hsame.
  destruct (Nat.ltb_spec 5 (length l1)) as [Hlong | Hshort]; [|exact Hsame].
  destruct (nth_error l1 5) eqn:H1; [|apply nth_error_None in H1; lia].
  destruct (nth_error l2 5) eqn:H2; [reflexivity|apply nth_error_None in H2; lia].
Qed.

Lemma when_in_step (c : bool) (f : TimeMarks.Timer -> TimeMarks.Timer) (t : TimeMarks.Timer) :
  (forall t', TimeMarks.in_step t' -> TimeMarks.in_step (f t')) ->
  TimeMarks.in_step t -> TimeMarks.in_step (TimeMarks.when c f t).
Proof. intros Hf Ht. unfold TimeMarks.when. destruct c; auto. Qed.

Lemma record_mark_in_step (x : TimeMarks.Letter) (r : TimeMarks.Readings) (t : TimeMarks.Timer) :
  TimeMarks.in_step t -> TimeMarks.in_step (TimeMarks.record_mark x r t).
Proof.
  unfold TimeMarks.in_step. cbn. intros Ht. rewrite !length_app. cbn. lia.
Qed.

Lemma list_maintenance_aligned (t : TimeMarks.Timer) :
  TimeMarks.in_step t -> TimeMarks.aligned (TimeMarks.list_maintenance t).
Proof.
  intros Ht. split; cbn.
  - now apply keep_sixth_in_step.
  - apply keep_sixth_length.
Qed.

Lemma hourly_marks_aligned (r : TimeMarks.Readings) (t : TimeMarks.Timer) :
  TimeMarks.in_step t -> TimeMarks.aligned (TimeMarks.hourly_marks r t).
Proof.
  intros Ht. unfold TimeMarks.hourly_marks. cbv zeta.
  apply list_maintenance_aligned.
  repeat (apply when_in_step; [intros t' Ht'|]);
    try exact Ht; try exact Ht'; try (now apply record_mark_in_step).
Qed.

Lemma minutely_marks_aligned (r : TimeMarks.Readings) (t : TimeMarks.Timer) :
  TimeMarks.in_step t -> TimeMarks.aligned (TimeMarks.minutely_marks r t).
Proof.
  intros Ht. unfold TimeMarks.minutely_marks. cbv zeta.
  apply list_maintenance_aligned.
  repeat (apply when_in_step; [intros t' Ht'|]);
    try exact Ht; try exact Ht'; try (now apply record_mark_in_step).
Qed.

Lemma update_time_marks_aligned (hourly_bot minutely_bot : option bool)
    (r : TimeMarks.Readings) (t : TimeMarks.Timer) :
  TimeMarks.aligned t -> TimeMarks.aligned (TimeMarks.update_time_marks hourly_bot minutely_bot r t).
Proof.
  intros Ht. unfold TimeMarks.update_time_marks.
  destruct (is_True hourly_bot); [apply hourly_marks_aligned, Ht|].
  destruct (is_True minutely_bot); [apply minutely_marks_aligned, Ht | exact Ht].
Qed.

Lemma index_in_range (t : Z) (l : list Z) (i : nat) :
  Live.index t l = Some i -> i < length l.
Proof.
  revert i. induction l as [|x l IH]; intros i; cbn; [discriminate|].
  destruct (x =? t)%Z.
  - intros [= <-]. lia.
  - destruct (Live.index t l) as [j|]; cbn; [|discriminate].
    intros [= <-]. specialize (IH j eq_refl). lia.
Qed.

Lemma mark_price_in_step (m : Live.Marks) (mark : option Z) :
  length (Live.time_mark_list m) = length (Live.price_mark_list m) ->
  Live.mark_price m mark <> None.
Proof.
  intros Hsame. unfold Live.mark_price.
  destruct mark as [t|]; [|discriminate].
  destruct (Live.index t (Live.time_mark_list m)) as [i|] eqn:Hindex; [|discriminate].
  apply index_in_range in Hindex.
  destruct (nth_error (Live.price_mark_list m) i) eqn:Hprice; [discriminate|].
  apply nth_error_None in Hprice. lia.
Qed.

(** From start-up on, whatever the switches and the readings of each call,
    [update_time_marks] leaves [time_mark_list] and [price_mark_list] of
    the same length, at most five entries long; so the price look-ups of
    [execute_hourly_strategy], [price_mark_list[time_mark_list.index(mark)]],
    never raise an IndexError. *)
Theorem time_marks_stay_aligned
    (inputs : list (option bool * option bool * TimeMarks.Readings)) (perf : Q) :
  TimeMarks.aligned (TimeMarks.calls inputs (TimeMarks.start perf))
  /\ forall mark,
       Live.mark_price (TimeMarks.marks_of (TimeMarks.calls inputs (TimeMarks.start perf))) mark
       <> None.
Proof.
  assert (Haligned : TimeMarks.aligned (TimeMarks.calls inputs (TimeMarks.start perf))).
  { unfold TimeMarks.calls. apply (for_each_keeps TimeMarks.aligned).
    - intros i t _ Ht. now apply update_time_marks_aligned.
    - split; cbn; lia. }
  split; [exact Haligned|].
  intros mark. apply mark_price_in_step. exact (proj1 Haligned).
Qed.

Lemma when_time_mark (c : bool) (f : TimeMarks.Timer -> TimeMarks.Timer) (t : TimeMarks.Timer) :
  (forall t', TimeMarks.time_mark (f t') = TimeMarks.time_mark t') ->
  TimeMarks.time_mark (TimeMarks.when c f t) = TimeMarks.time_mark t.
Proof. intros Hf. unfold TimeMarks.when. destruct c; auto. Qed.

(** The counter [time_mark] cycles: in hourly mode a call that finds it in
    0 .. 119 leaves it in 0 .. 119 (the call that brings it to 120 records
    mark C and resets it), in minutely mode a call that finds it in 0 .. 3
    leaves it in 0 .. 3; a call moves it by at most one step or resets it. *)
Theorem time_mark_counter_cycles (r : TimeMarks.Readings) (t : TimeMarks.Timer) :
  ((0 <= TimeMarks.time_mark t < 120)%Z ->
   (0 <= TimeMarks.time_mark (TimeMarks.hourly_marks r t) < 120)%Z
   /\ (TimeMarks.time_mark (TimeMarks.hourly_marks r t) = TimeMarks.time_mark t
       \/ TimeMarks.time_mark (TimeMarks.hourly_marks r t) = (TimeMarks.time_mark t + 1)%Z
       \/ TimeMarks.time_mark (TimeMarks.hourly_marks r t) = 0%Z))
  /\ ((0 <= TimeMarks.time_mark t < 4)%Z ->
      (0 <= TimeMarks.time_mark (TimeMarks.minutely_marks r t) < 4)%Z
      /\ (TimeMarks.time_mark (TimeMarks.minutely_marks r t) = TimeMarks.time_mark t
          \/ TimeMarks.time_mark (TimeMarks.minutely_marks r t) = (TimeMarks.time_mark t + 1)%Z
          \/ TimeMarks.time_mark (TimeMarks.minutely_marks r t) = 0%Z)).
Proof.
  split; intros Hrange.
  - unfold TimeMarks.hourly_marks. cbv zeta.
    set (t1 := TimeMarks.when (TimeMarks.time_mark t =? 0)%Z _ t).
    assert (H1 : TimeMarks.time_mark t1 = TimeMarks.time_mark t)
      by (apply when_time_mark; reflexivity).
    set (t2 := TimeMarks.when (_ && _) _ t1).
    assert (H2 : TimeMarks.time_mark t2 = TimeMarks.time_mark t
                 \/ TimeMarks.time_mark t2 = (TimeMarks.time_mark t + 1)%Z).
    { unfold t2, TimeMarks.when. destruct (_ && _); cbn; rewrite H1; auto. }
    set (t3 := TimeMarks.when (TimeMarks.time_mark t2 =? 60)%Z _ t2).
    assert (H3 : TimeMarks.time_mark t3 = TimeMarks.time_mark t2)
      by (apply when_time_mark; reflexivity).
    cbn [TimeMarks.list_maintenance TimeMarks.time_mark].
    unfold TimeMarks.when.
    destruct (Z.eqb_spec (TimeMarks.time_mark t3) 120) as [Hreset | Hgo]; cbn; lia.
  - unfold TimeMarks.minutely_marks. cbv zeta.
    set (t1 := TimeMarks.when (TimeMarks.time_mark t =? 0)%Z _ t).
    assert (H1 : TimeMarks.time_mark t1 = TimeMarks.time_mark t)
      by (apply when_time_mark; reflexivity).
    set (t2 := TimeMarks.when (_ && _) _ t1).
    assert (H2 : TimeMarks.time_mark t2 = TimeMarks.time_mark t
                 \/ TimeMarks.time_mark t2 = (TimeMarks.time_mark t + 1)%Z).
    { unfold t2, TimeMarks.when. destruct (_ && _); cbn; rewrite H1; auto. }
    set (t3 := TimeMarks.when (_ && _) _ t2).
    assert (H3 : TimeMarks.time_mark t3 = TimeMarks.time_mark t2)
      by (apply when_time_mark; reflexivity).
    set (t4 := TimeMarks.when (TimeMarks.time_mark t3 =? 2)%Z _ t3).
    assert (H4 : TimeMarks.time_mark t4 = TimeMarks.time_mark t3)
      by (apply when_time_mark; reflexivity).
    set (t5 := TimeMarks.when (TimeMarks.time_mark t4 =? 3)%Z _ t4).
    assert (H5 : TimeMarks.time_mark t5 = TimeMarks.time_mark t4)
      by (apply when_time_mark; reflexivity).
    cbn [TimeMarks.list_maintenance TimeMarks.time_mark].
    unfold TimeMarks.when.
    destruct (Z.eqb_spec (TimeMarks.time_mark t5) 4) as [Hreset | Hgo]; cbn; lia.
Qed.

Lemma time_mark_counter_cycles_witness :
  (0 <= TimeMarks.time_mark (TimeMarks.hourly_marks MoreInputs.readings (TimeMarks.start 0))
   < 120)%Z.
Proof.
  apply (time_mark_counter_cycles MoreInputs.readings (TimeMarks.start 0)).
  vm_compute. split; [discriminate | reflexivity].
Defined.

(** ** update_price_history *)

Lemma append_and_trim_window (limit : nat) (rows : list Q) (price : Q) :
  0 < limit ->
  PriceHistory.append_and_trim limit rows (Some price)
  = skipn (length rows + 1 - limit) rows ++ [price].
Proof.
  intros Hlimit. unfold PriceHistory.append_and_trim, PriceHistory.tail.
  rewrite length_app. cbn [length].
  destruct (Nat.ltb_spec limit (length rows + 1)) as [Hlong | Hshort].
  - rewrite skipn_app.
    replace (length rows + 1 - limit - length rows) with 0 by lia. reflexivity.
  - replace (length rows + 1 - limit) with 0 by lia. reflexivity.
Qed.

(** The minutely file is a sliding window of 14400 rows: after a call
    that read a spot price the file ends with that price, the rows before
    it are the most recent rows of the old file in their order, and the
    file has [min (old + 1) 14400] rows; a call whose read failed leaves
    the file as it is. *)
Theorem minutely_file_is_a_sliding_window (rows : list Q) (price : Q) :
  length (PriceHistory.update_minutely rows (Some price))
  = Nat.min (length rows + 1) PriceHistory.minutes_kept
  /\ (exists dropped kept,
        rows = dropped ++ kept
        /\ PriceHistory.update_minutely rows (Some price) = kept ++ [price])
  /\ PriceHistory.update_minutely rows None = rows.
Proof.
  assert (Hlimit : 0 < PriceHistory.minutes_kept) by (unfold PriceHistory.minutes_kept; lia).
  unfold PriceHistory.update_minutely.
  rewrite (append_and_trim_window _ rows price Hlimit).
  split; [|split].
  - rewrite length_app, length_skipn. cbn [length]. lia.
  - exists (firstn (length rows + 1 - PriceHistory.minutes_kept) rows),
           (skipn (length rows + 1 - PriceHistory.minutes_kept) rows).
    split; [now rewrite firstn_skipn | reflexivity].
  - reflexivity.
Qed.

(** * The buy of the strategy functions, the detector *)



(** As the script runs it the slippage detector changes nothing: the
    fault count it tests is 0 or 1 and [buy_sell_results] is empty, so
    neither switch is turned off, and it places no order and leaves the
    position alone, whatever was recorded before. *)
Theorem slippage_detector_changes_nothing (records : list Q) (st : Live.State) :
  Live.final (Live.slippage_fault_detector records st) = st.
Proof.
  unfold Live.slippage_fault_detector.
  destruct (records ++ _ ++ _) as [|? [|? ?]];
    try destruct (Live.bought_price (Live.position st));
    try destruct (Live.sold_price (Live.position st));
    try destruct (_ && _); reflexivity.
Qed.

(** The grid the script generates consists of fractions. *)
Lemma Increments_Generator_fractions : Invariants.fractions Grid.Increments_Generator.
Proof.
  intros m Hm.
  assert (Hall : forallb (fun m => Qle_bool 0 m && negb (Qle_bool 1 m))
                   (Grid.axlist Grid.Increments_Generator ++ Grid.axxlist Grid.Increments_Generator
                    ++ Grid.aclist Grid.Increments_Generator
                    ++ Grid.bxlist Grid.Increments_Generator
                    ++ Grid.bxxlist Grid.Increments_Generator
                    ++ Grid.cdlist Grid.Increments_Generator) = true)
    by (vm_compute; reflexivity).
  rewrite forallb_forall in Hall. specialize (Hall m Hm).
  apply andb_true_iff in Hall. destruct Hall as [Hlo Hhi].
  apply Qle_bool_iff in Hlo. apply negb_true_iff in Hhi.
  split; [exact Hlo|]. apply Qnot_le_lt. intros Hle.
  apply Qle_bool_iff in Hle. congruence.
Qed.

(** * The calibration as the script runs it *)

Lemma hourly_buy_no_model (ex : Live.Exchange) (st : Live.State) :
  is_True (Live.model (Live.switches st) Live.ABCD) = false ->
  Live.hourly_buy ex st = Live.Ok st \/ Live.hourly_buy ex st = Live.Raised st.
Proof.
  intros Hoff. unfold Live.hourly_buy.
  destruct (3 <=? _); [|now left].
  destruct (Live.mark_price _ _) as [p5|]; [|now right].
  destruct (Live.mark_price _ _) as [p65|]; [|now right].
  destruct (Live.mark_price _ _) as [p125|]; [|now right].
  destruct (_ && _); [|now left].
  left. apply If_false. unfold Live.pure. now rewrite Hoff.
Qed.

Lemma minutely_buy_no_model (ex : Live.Exchange) (st : Live.State) :
  is_True (Live.model (Live.switches st) Live.ASpike) = false ->
  Live.minutely_buy ex st = Live.Ok st.
Proof.
  intros Hoff. unfold Live.minutely_buy.
  destruct (Live.price_1_minute_ago (Live.past st)); [|reflexivity].
  apply If_false. unfold Live.pure. now rewrite Hoff.
Qed.

Section NoModel.
Variable update_time_marks : Live.Exchange -> Live.State -> Live.Marks.

Lemma cycle_no_model (ex : Live.Exchange) (st : Live.State) :
  (forall p, is_True (Live.model (Live.switches st) p) = false) ->
  Live.held st = false ->
  Live.orders (Live.cycle update_time_marks ex st) = Live.orders st
  /\ Live.switches (Live.cycle update_time_marks ex st) = Live.switches st
  /\ Live.position (Live.cycle update_time_marks ex st) = Live.position st.
Proof.
  intros Hoff Hflat.
  unfold Live.cycle, Live.execute_bot_cycle, Live.seq_then, Live.assign, Live.bind.
  set (st2 := Live.set_marks _ (Live.set_clock _ st)).
  assert (Hflat2 : Live.held st2 = false) by exact Hflat.
  assert (Hoff2 : forall p, is_True (Live.model (Live.switches st2) p) = false) by exact Hoff.
  destruct (log_position_cases st2) as [-> | ->]; [|now split].
  destruct (is_True (Live.hourly_bot (Live.switches st2))).
  - unfold Live.execute_hourly_strategy, Live.seq_then.
    destruct (hourly_buy_no_model ex st2 (Hoff2 Live.ABCD)) as [-> | ->]; [|now split].
    cbn [Live.bind]. rewrite (strategy_sells_flat ex st2 Hflat2). now split.
  - destruct (is_True (Live.minutely_bot (Live.switches st2))); [|now split].
    unfold Live.execute_minutely_strategy, Live.seq_then.
    rewrite (minutely_buy_no_model ex st2 (Hoff2 Live.ASpike)).
    cbn [Live.bind]. rewrite (strategy_sells_flat ex st2 Hflat2). now split.
Qed.

Lemma main_loop_no_model (answers : list Live.Exchange) (st : Live.State) :
  (forall p, is_True (Live.model (Live.switches st) p) = false) ->
  Live.held st = false ->
  Live.orders (Live.main_loop update_time_marks answers st) = Live.orders st
  /\ Live.held (Live.main_loop update_time_marks answers st) = false.
Proof.
  revert st. induction answers as [|ex answers IH]; intros st Hoff Hflat; [now split|].
  change (Live.main_loop update_time_marks (ex :: answers) st)
    with (Live.main_loop update_time_marks answers (Live.cycle update_time_marks ex st)).
  destruct (cycle_no_model ex st Hoff Hflat) as (Horders & Hswitches & Hposition).
  destruct (IH (Live.cycle update_time_marks ex st)) as [IHorders IHflat].
  - now rewrite Hswitches.
  - unfold Live.held in *. now rewrite Hposition.
  - split; congruence.
Qed.

Lemma trading_pass_no_model (ex : Live.Exchange) (st : Live.State) :
  (forall p, is_True (Live.model (Live.switches st) p) = false) ->
  Live.orders (Live.final (Live.trading_pass ex st)) = Live.orders st.
Proof.
  intros Hoff. unfold Live.trading_pass, Live.seq_then.
  rewrite (abcd_section_closed st (Hoff Live.ABCD)). cbn [Live.bind].
  destruct (closed_section_then_tracker Live.ABCD ex st)
    as (t1 & R1 & _ & _ & _ & S1 & _ & _ & O1).
  rewrite R1. cbn [Live.bind].
  rewrite (abc_section_closed ex t1) by (rewrite S1; apply Hoff). cbn [Live.bind].
  destruct (closed_section_then_tracker Live.ABC ex t1)
    as (t2 & R2 & _ & _ & _ & S2 & _ & _ & O2).
  rewrite R2. cbn [Live.bind].
  rewrite (ab_section_closed ex t2) by (rewrite S2, S1; apply Hoff). cbn [Live.bind].
  destruct (closed_section_then_tracker Live.AB ex t2)
    as (t3 & R3 & _ & _ & _ & S3 & _ & _ & O3).
  rewrite R3. cbn [Live.bind].
  rewrite (aspike_section_closed ex t3) by (rewrite S3, S2, S1; apply Hoff).
  cbn [Live.bind].
  destruct (closed_section_then_tracker Live.ASpike ex t3)
    as (t4 & R4 & _ & _ & _ & _ & _ & _ & O4).
  rewrite R4. cbn [Live.final]. congruence.
Qed.

(** The viability checks test counts that were computed while the sample
    lists were still empty, so each check fails whatever the trier recorded
    later and every model flag stays [None].  With the flags they leave,
    and no position at start, the script never trades: a pass over the four
    module-level sections places no order, and the main loop places no
    order and opens no position, for any number of cycles and any prices. *)
Theorem calibration_as_run_never_trades
    (wins most_win_thresholds : Live.Pattern -> list Q)
    (answers : list Live.Exchange) (ex : Live.Exchange) (st : Live.State) :
  (forall p, Live.model (Live.switches st) p
             = Viability.model (AsRun.viability (wins p) (most_win_thresholds p))) ->
  Live.held st = false ->
  (forall p, Live.model (Live.switches st) p = None)
  /\ Live.orders (Live.final (Live.trading_pass ex st)) = Live.orders st
  /\ Live.orders (Live.main_loop update_time_marks answers st) = Live.orders st
  /\ Live.held (Live.main_loop update_time_marks answers st) = false.
Proof.
  intros Hflags Hflat.
  assert (Hnone : forall p, Live.model (Live.switches st) p = None).
  { intros p. rewrite Hflags. reflexivity. }
  assert (Hoff : forall p, is_True (Live.model (Live.switches st) p) = false).
  { intros p. now rewrite Hnone. }
  split; [exact Hnone|]. split; [now apply trading_pass_no_model|].
  now apply main_loop_no_model.
Qed.
End NoModel.

Lemma calibration_as_run_never_trades_witness :
  Live.orders (Live.final (Live.trading_pass Inputs.exchange MoreInputs.uncalibrated)) = []
  /\ Live.orders (Live.main_loop (fun _ st => Live.marks st)
                    [Inputs.exchange; Inputs.exchange] MoreInputs.uncalibrated) = []
  /\ Live.held (Live.main_loop (fun _ st => Live.marks st)
                  [Inputs.exchange; Inputs.exchange] MoreInputs.uncalibrated) = false.
Proof.
  apply (calibration_as_run_never_trades (fun _ st => Live.marks st)
           (fun _ => Inputs.wins_1400) (fun _ => [])).
  - intros p. reflexivity.
  - reflexivity.
Defined.

(** * The hourly strategy waits for its marks *)

Lemma when_mark_c (c : bool) (f : TimeMarks.Timer -> TimeMarks.Timer) (t : TimeMarks.Timer) :
  (forall t', TimeMarks.time_mark_of (f t') TimeMarks.C = TimeMarks.time_mark_of t' TimeMarks.C) ->
  TimeMarks.time_mark_of (TimeMarks.when c f t) TimeMarks.C
  = TimeMarks.time_mark_of t TimeMarks.C.
Proof. intros Hf. unfold TimeMarks.when. destruct c; auto. Qed.

Lemma hourly_marks_before_mark_c (r : TimeMarks.Readings) (t : TimeMarks.Timer) (n : Z) :
  (0 <= TimeMarks.time_mark t <= n)%Z -> (n + 1 < 120)%Z ->
  (0 <= TimeMarks.time_mark (TimeMarks.hourly_marks r t) <= n + 1)%Z
  /\ TimeMarks.time_mark_of (TimeMarks.hourly_marks r t) TimeMarks.C
     = TimeMarks.time_mark_of t TimeMarks.C.
Proof.
  intros Hrange Hearly. unfold TimeMarks.hourly_marks. cbv zeta.
  set (t1 := TimeMarks.when (TimeMarks.time_mark t =? 0)%Z _ t).
  assert (H1 : TimeMarks.time_mark t1 = TimeMarks.time_mark t)
    by (apply when_time_mark; reflexivity).
  assert (C1 : TimeMarks.time_mark_of t1 TimeMarks.C = TimeMarks.time_mark_of t TimeMarks.C)
    by (apply when_mark_c; reflexivity).
  set (t2 := TimeMarks.when (_ && _) _ t1).
  assert (H2 : TimeMarks.time_mark t2 = TimeMarks.time_mark t
               \/ TimeMarks.time_mark t2 = (TimeMarks.time_mark t + 1)%Z).
  { unfold t2, TimeMarks.when. destruct (_ && _); cbn; rewrite H1; auto. }
  assert (C2 : TimeMarks.time_mark_of t2 TimeMarks.C = TimeMarks.time_mark_of t1 TimeMarks.C)
    by (apply when_mark_c; reflexivity).
  set (t3 := TimeMarks.when (TimeMarks.time_mark t2 =? 60)%Z _ t2).
  assert (H3 : TimeMarks.time_mark t3 = TimeMarks.time_mark t2)
    by (apply when_time_mark; reflexivity).
  assert (C3 : TimeMarks.time_mark_of t3 TimeMarks.C = TimeMarks.time_mark_of t2 TimeMarks.C)
    by (apply when_mark_c; reflexivity).
  cbn [TimeMarks.list_maintenance TimeMarks.time_mark TimeMarks.time_mark_of].
  unfold TimeMarks.when.
  destruct (Z.eqb_spec (TimeMarks.time_mark t3) 120) as [Hreset | Hgo]; [lia|].
  split; [lia | congruence].
Qed.

Lemma hourly_calls_before_mark_c (rs : list TimeMarks.Readings) (minutely_bot : option bool)
    (t : TimeMarks.Timer) (n : Z) :
  (0 <= TimeMarks.time_mark t <= n)%Z -> (n + Z.of_nat (length rs) < 120)%Z ->
  TimeMarks.time_mark_of
    (TimeMarks.calls (map (fun r => (Some true, minutely_bot, r)) rs) t) TimeMarks.C
  = TimeMarks.time_mark_of t TimeMarks.C.
Proof.
  revert t n. induction rs as [|r rs IH]; intros t n Hrange Hearly; [reflexivity|].
  cbn [map]. unfold TimeMarks.calls. rewrite for_each_cons.
  cbn [fst snd]. unfold TimeMarks.update_time_marks at 2. cbn [is_True].
  cbn [length] in Hearly.
  destruct (hourly_marks_before_mark_c r t n Hrange ltac:(lia)) as [Hnext Hsame].
  rewrite <- Hsame. apply (IH _ (n + 1)%Z); [exact Hnext | lia].
Qed.

Lemma hourly_buy_without_mark_c (ex : Live.Exchange) (st : Live.State) :
  Live.time_mark_c (Live.marks st) = None ->
  Live.hourly_buy ex st = Live.Ok st \/ Live.hourly_buy ex st = Live.Raised st.
Proof.
  intros Hnone. unfold Live.hourly_buy. rewrite Hnone.
  destruct (3 <=? _); [|now left].
  cbn [Live.mark_price].
  destruct (Live.mark_price _ _) as [p65|]; [|now right].
  destruct (Live.mark_price _ _) as [p125|]; [|now right].
  now left.
Qed.

(** In hourly mode mark C, the "five minutes ago" price of the hourly
    strategy, is first recorded by the call of [update_time_marks] that
    brings the counter to 120.  After fewer than 120 calls from start-up
    [time_mark_c] is still [None], and [execute_hourly_strategy] places no
    buy, whatever the model flags and the prices. *)
Theorem hourly_strategy_waits_for_mark_c
    (rs : list TimeMarks.Readings) (minutely_bot : option bool) (perf : Q)
    (ex : Live.Exchange) (st : Live.State) :
  length rs < 120 ->
  Live.marks st
  = TimeMarks.marks_of
      (TimeMarks.calls (map (fun r => (Some true, minutely_bot, r)) rs) (TimeMarks.start perf)) ->
  Live.time_mark_c (Live.marks st) = None
  /\ filter Live.is_buy (Live.orders (Live.final (Live.execute_hourly_strategy ex st)))
     = filter Live.is_buy (Live.orders st).
Proof.
  intros Hearly Hmarks.
  assert (Hnone : Live.time_mark_c (Live.marks st) = None).
  { rewrite Hmarks. cbn [TimeMarks.marks_of Live.time_mark_c].
    rewrite (hourly_calls_before_mark_c rs minutely_bot (TimeMarks.start perf) 0);
      [reflexivity | cbn; lia | lia]. }
  split; [exact Hnone|].
  unfold Live.execute_hourly_strategy, Live.seq_then.
  destruct (hourly_buy_without_mark_c ex st Hnone) as [-> | ->]; [|reflexivity].
  apply strategy_sells_adds_no_buy.
Qed.

Lemma hourly_strategy_waits_for_mark_c_witness :
  Live.time_mark_c (Live.marks MoreInputs.after_two_calls) = None
  /\ filter Live.is_buy
       (Live.orders (Live.final (Live.execute_hourly_strategy Inputs.exchange
                                   MoreInputs.after_two_calls)))
     = filter Live.is_buy (Live.orders MoreInputs.after_two_calls).
Proof.
  apply (hourly_strategy_waits_for_mark_c [MoreInputs.readings; MoreInputs.readings]
           (Some false) 0).
  - cbn. lia.
  - reflexivity.
Defined.

(** * What the conditions of the trier accept at real prices *)

(** With Python's precedence the ceiling test [b <= 1+axx * a] compares
    [b] with [1 + axx * a], which is at most [a] once [a >= 2] and
    [axx <= 1/2]: a rise from [a] to [b] fails it. *)
Lemma rise_fails_ceiling (a b axx : Q) :
  (2 <= a)%Q -> (axx <= 1 # 2)%Q -> (a <?q b) = true -> (b <=?q 1 + axx * a) = false.
Proof.
  intros Ha Haxx Hrise. apply lt_iff in Hrise. apply le_false_iff.
  assert (Hprod : (axx * a <= (1 # 2) * a)%Q) by (apply Qmult_le_compat_r; lra).
  lra.
Qed.

Lemma rise_passes_floor (a b ax : Q) :
  (2 <= a)%Q -> (ax <= 1 # 2)%Q -> (a <?q b) = true -> (b >=?q 1 + ax * a) = true.
Proof.
  intros Ha Hax Hrise. apply lt_iff in Hrise. apply ge_iff.
  assert (Hprod : (ax * a <= (1 # 2) * a)%Q) by (apply Qmult_le_compat_r; lra).
  lra.
Qed.

Lemma abcd_match_fails (a b c ax axx ac bx bxx : Q) :
  (2 <= a)%Q -> (axx <= 1 # 2)%Q -> Scanner.abcd_match a b c ax axx ac bx bxx = false.
Proof.
  intros Ha Haxx. unfold Scanner.abcd_match.
  destruct (a <?q b) eqn:Hrise; [|reflexivity].
  rewrite (rise_fails_ceiling a b axx Ha Haxx Hrise).
  now rewrite andb_false_r.
Qed.

Lemma abc_match_fails (a b ax axx : Q) :
  (2 <= a)%Q -> (axx <= 1 # 2)%Q -> Scanner.abc_match a b ax axx = false.
Proof.
  intros Ha Haxx. unfold Scanner.abc_match.
  destruct (a <?q b) eqn:Hrise; [|reflexivity].
  rewrite (rise_fails_ceiling a b axx Ha Haxx Hrise).
  now rewrite andb_false_r.
Qed.

(** The abcd and abc shapes ask for a rise, [a < b], and for
    [b <= 1+axx * a].  For a history whose prices are all at least 2 and a
    grid whose [axxlist] values are at most 1/2 (the generated ones are at
    most 0.04) the two never hold together: whatever the prices do, the
    scan leaves the abcd and the abc win and loss lists empty. *)
Theorem rising_shapes_record_nothing (G : Grid.Lists) (hist : list Q) :
  (forall axx, In axx (Grid.axxlist G) -> (axx <= 1 # 2)%Q) ->
  (forall p, In p hist -> (2 <= p)%Q) ->
  exists r,
    Scanner.Cartesian_Trier G hist = Some r
    /\ Scanner.wins_risinglows_abcd (Scanner.samples r) = []
    /\ Scanner.losses_risinglows_abcd (Scanner.samples r) = []
    /\ Scanner.wins_risinglows_abc (Scanner.samples r) = []
    /\ Scanner.losses_risinglows_abc (Scanner.samples r) = [].
Proof.
  intros Hgrid Hhist. eexists. split; [apply Cartesian_Trier_windows|].
  apply (trier_keeps G hist
           (fun s => Scanner.wins_risinglows_abcd s = []
                     /\ Scanner.losses_risinglows_abcd s = []
                     /\ Scanner.wins_risinglows_abc s = []
                     /\ Scanner.losses_risinglows_abc s = []));
    [now repeat split | | apply Cartesian_Trier_windows].
  intros a b c d ax axx ac bx bxx cd s Ha _ _ _ _ Haxx _ _ _ _ (H1 & H2 & H3 & H4).
  cbn [Scanner.tries Scanner.wins_risinglows_abcd Scanner.losses_risinglows_abcd
       Scanner.wins_risinglows_abc Scanner.losses_risinglows_abc].
  unfold Scanner.abcd_win, Scanner.abcd_loss, Scanner.abc_win, Scanner.abc_loss.
  rewrite (abcd_match_fails a b c ax axx ac bx bxx (Hhist a Ha) (Hgrid axx Haxx)).
  rewrite (abc_match_fails a b ax axx (Hhist a Ha) (Hgrid axx Haxx)).
  cbn [andb Scanner.extend_if]. auto.
Qed.

Lemma rising_shapes_record_nothing_witness :
  exists r,
    Scanner.Cartesian_Trier Inputs.short_grid [100; 101; 102; 103; 104]%Q = Some r
    /\ Scanner.wins_risinglows_abcd (Scanner.samples r) = []
    /\ Scanner.losses_risinglows_abcd (Scanner.samples r) = []
    /\ Scanner.wins_risinglows_abc (Scanner.samples r) = []
    /\ Scanner.losses_risinglows_abc (Scanner.samples r) = [].
Proof.
  apply rising_shapes_record_nothing.
  - intros axx Haxx. cbn in Haxx. destruct Haxx as [<- | []]. vm_compute. discriminate.
  - intros p Hp. cbn in Hp.
    repeat (destruct Hp as [<- | Hp]; [vm_compute; discriminate|]).
    destruct Hp.
Defined.

(** At such prices the floor test [b >= 1+ax * a] adds nothing to a rise:
    the ab tests accept every rising pair at every [ax], so the ab win and
    loss tests are [a < b] together with the test on [c] alone. *)
Theorem ab_tests_ignore_ax (a b c ax cd : Q) :
  (2 <= a)%Q -> (ax <= 1 # 2)%Q ->
  Scanner.ab_win a b c ax cd = (a <?q b) && (c >=?q b * 1 + cd)
  /\ Scanner.ab_loss a b c ax cd = (a <?q b) && (c <?q b * 1 + cd).
Proof.
  intros Ha Hax. unfold Scanner.ab_win, Scanner.ab_loss, Scanner.ab_match.
  destruct (a <?q b) eqn:Hrise; [|split; reflexivity].
  rewrite (rise_passes_floor a b ax Ha Hax Hrise). split; reflexivity.
Qed.

Lemma ab_tests_ignore_ax_witness :
  Scanner.ab_win 100 101 102 (2 # 1000) (5 # 1000)
  = (100 <?q 101) && (102 >=?q 101 * 1 + (5 # 1000))
  /\ Scanner.ab_loss 100 101 102 (2 # 1000) (5 # 1000)
     = (100 <?q 101) && (102 <?q 101 * 1 + (5 # 1000)).
Proof.
  apply ab_tests_ignore_ax; vm_compute; discriminate.
Defined.
